(** * Model of the user and item services of NodejsPerformanceTest

    Shallow embedding of the TypeScript sources:
    - [UserService] (user.service.ts: registerUser, findUserByEmail,
      authenticateUser), the [UserModel] (user.model.ts: pre-save hashing,
      comparePassword) and [UserController] (register, login);
    - [ItemService] (item.service.ts: createItem, getAllItems,
      invalidateCache) and [ItemModel] (item.model.ts);
    - the node-cache [NodeCache] both services use, with the options they
      pass (stdTTL, maxKeys; deleteOnExpire left at its default).

    Time is Date.now() in milliseconds, passed to each operation as [now].
    The MongoDB collections are lists in insertion order. The item side
    models a connection that may be down ([DbConn]); on the user side the
    connection is up. Where the behaviour depends on the version of
    class-validator or bson, which the repository does not pin, the
    version is a parameter ([Libs]). Strings are ASCII strings:
    toLowerCase is modelled on ASCII letters. *)

From Stdlib Require Import ZArith QArith Ascii Lqa.
From stdpp Require Import base gmap strings list fin_maps.

Local Open Scope Z_scope.

(* ------------------------------------------------------------------ *)
(** ** Results of fallible calls: a value, or a thrown Error's message *)

Inductive Result (A : Type) : Type :=
| Ok (a : A)
| Err (msg : string).
Arguments Ok {A} a.
Arguments Err {A} msg.

(* ------------------------------------------------------------------ *)
(** ** String helpers (String.prototype methods used by the code) *)

Module Str.

Definition ascii_lower (c : ascii) : ascii :=
  let n := nat_of_ascii c in
  if (65 <=? n)%nat && (n <=? 90)%nat then ascii_of_nat (n + 32) else c.

(** [s.toLowerCase()], on ASCII letters. *)
Fixpoint toLowerCase (s : string) : string :=
  match s with
  | EmptyString => EmptyString
  | String c r => String (ascii_lower c) (toLowerCase r)
  end.

Fixpoint startsWith (p s : string) : bool :=
  match p, s with
  | EmptyString, _ => true
  | String c p', String d s' => Ascii.eqb c d && startsWith p' s'
  | String _ _, EmptyString => false
  end.

(** [s.includes(p)] *)
Fixpoint includes (s p : string) : bool :=
  startsWith p s ||
  match s with
  | EmptyString => false
  | String _ s' => includes s' p
  end.

(** [arr.join(sep)] *)
Fixpoint join (sep : string) (l : list string) : string :=
  match l with
  | [] => ""
  | [x] => x
  | x :: r => x +:+ sep +:+ join sep r
  end.

(** [s.split(c)] for a one-character separator, with JavaScript's
    semantics: empty pieces are kept and [""] splits to [[""]]. *)
Fixpoint split (c : ascii) (s : string) : list string :=
  match s with
  | EmptyString => [""]
  | String d r =>
      match split c r with
      | [] => [""]
      | piece :: rest =>
          if Ascii.eqb c d then "" :: piece :: rest
          else String d piece :: rest
      end
  end.

Fixpoint all_chars (f : ascii -> bool) (s : string) : bool :=
  match s with
  | EmptyString => true
  | String c r => f c && all_chars f r
  end.

Fixpoint last_char (s : string) : option ascii :=
  match s with
  | EmptyString => None
  | String c EmptyString => Some c
  | String _ r => last_char r
  end.

Definition first_char (s : string) : option ascii :=
  match s with
  | EmptyString => None
  | String c _ => Some c
  end.

End Str.

(* ------------------------------------------------------------------ *)
(** ** ASCII character classes *)

Module Validator.

Definition is_alpha (c : ascii) : bool :=
  let n := nat_of_ascii (Str.ascii_lower c) in (97 <=? n)%nat && (n <=? 122)%nat.
Definition is_digit (c : ascii) : bool :=
  let n := nat_of_ascii c in (48 <=? n)%nat && (n <=? 57)%nat.
(** [/[0-9a-fA-F]/] *)
Definition is_hex (c : ascii) : bool :=
  is_digit c ||
  (let n := nat_of_ascii (Str.ascii_lower c) in (97 <=? n)%nat && (n <=? 102)%nat).

End Validator.

(* ------------------------------------------------------------------ *)
(** ** node-cache

    [set] throws ECACHEFULL when maxKeys > -1 and the key count has
    reached maxKeys; otherwise it stores the value with expiry time
    [now + ttl * 1000], the ttl defaulting to stdTTL, and 0 meaning
    "never expires". [get] returns an entry only when its expiry is 0 or
    not earlier than [now]; an expired entry is deleted on read
    (deleteOnExpire). The periodic check ([checkperiod]) runs the same
    test over every key. *)

Module NodeCache.

Record t (V : Type) : Type := mk {
  stdTTL : Z;
  maxKeys : Z;
  data : gmap string (V * Z)
}.
Arguments mk {V} stdTTL maxKeys data.
Arguments stdTTL {V} _.
Arguments maxKeys {V} _.
Arguments data {V} _.

Definition ECACHEFULL : string := "Cache max keys amount exceeded".

Definition keys {V} (c : t V) : Z := Z.of_nat (size (data c)).

Definition expired (t now : Z) : bool := negb (t =? 0) && (t <? now).

(** The ECACHEFULL condition of [set]. *)
Definition full {V} (c : t V) : bool := (-1 <? maxKeys c) && (maxKeys c <=? keys c).

Definition set {V} (c : t V) (now : Z) (key : string) (v : V) (ttl : option Z)
  : Result (t V) :=
  if full c then Err ECACHEFULL
  else
    let ttl' := match ttl with Some x => x | None => stdTTL c end in
    let livetime := if ttl' =? 0 then 0 else now + ttl' * 1000 in
    Ok (mk (stdTTL c) (maxKeys c) (<[key := (v, livetime)]> (data c))).

Definition del {V} (c : t V) (key : string) : t V :=
  mk (stdTTL c) (maxKeys c) (delete key (data c)).

Definition flushAll {V} (c : t V) : t V := mk (stdTTL c) (maxKeys c) ∅.

Definition get {V} (c : t V) (now : Z) (key : string) : option V * t V :=
  match data c !! key with
  | None => (None, c)
  | Some (v, t) => if expired t now then (None, del c key) else (Some v, c)
  end.

(** The periodic sweep ([_checkData]) every [checkperiod] seconds. *)
Definition sweep {V} (c : t V) (now : Z) : t V :=
  mk (stdTTL c) (maxKeys c) (filter (fun kv => expired kv.2.2 now = false) (data c)).

(** The calls a cache receives over time: reads, writes (a throwing write
    changes nothing), deletions, flushAll and periodic sweeps. *)
Inductive op (V : Type) : Type :=
| OpGet (key : string) (now : Z)
| OpSet (key : string) (v : V) (ttl : option Z) (now : Z)
| OpDel (key : string)
| OpFlush
| OpSweep (now : Z).
Arguments OpGet {V} key now.
Arguments OpSet {V} key v ttl now.
Arguments OpDel {V} key.
Arguments OpFlush {V}.
Arguments OpSweep {V} now.

Definition run_op {V} (c : t V) (o : op V) : t V :=
  match o with
  | OpGet key now => (get c now key).2
  | OpSet key v ttl now => match set c now key v ttl with Ok c' => c' | Err _ => c end
  | OpDel key => del c key
  | OpFlush => flushAll c
  | OpSweep now => sweep c now
  end.

Definition run_ops {V} (c : t V) (ops : list (op V)) : t V := fold_left run_op ops c.

Definition writes {V} (key : string) (o : op V) : bool :=
  match o with OpSet k _ _ _ => String.eqb k key | _ => false end.

End NodeCache.

(* ------------------------------------------------------------------ *)
(** ** Library versions the behaviour depends on

    The repository pins no version of class-validator nor of bson (the
    ObjectId implementation under mongoose). Where their releases
    differ, the behaviour is a parameter:
    - [forbidUnknownValues]: class-validator's default for the option of
      that name, true from 0.14 on, false up to 0.13;
    - [objectId_from_12_chars]: whether [new ObjectId(s)] accepts a string
      of 12 characters (read as its 12 bytes): true up to bson 5
      (mongoose 7), false from bson 6 (mongoose 8) on. *)

Record Libs : Type := {
  forbidUnknownValues : bool;
  objectId_from_12_chars : bool
}.

(** class-validator 0.14 with bson 6, and class-validator 0.13 with
    bson 5. *)
Definition libs_cv014 : Libs := {| forbidUnknownValues := true; objectId_from_12_chars := false |}.
Definition libs_cv013 : Libs := {| forbidUnknownValues := false; objectId_from_12_chars := true |}.

(* ------------------------------------------------------------------ *)
(** ** class-validator's [validate] on a typegoose document

    registerUser and createItem call [validate(doc)] on a document built
    by a typegoose model ([new User(...)], [new Item(...)]). The
    document's constructor is the mongoose model, not the decorated class
    (UserModel, ItemModel): class-validator finds no validation metadata
    for it, so none of the class's decorators ([@IsEmail],
    [@MinLength(8)], [@IsNotEmpty], [@Min(0)]) is checked, whatever the
    field values. With no metadata and [forbidUnknownValues] on,
    class-validator returns one error whose constraints are
    [{ unknownValue: 'an unknown value was passed to the validate function' }];
    with it off, no error. An error is modelled as the list of the values
    of its [constraints]. *)

Definition unknownValue : string := "an unknown value was passed to the validate function".

Definition validate {D : Type} (libs : Libs) (doc : D) : list (list string) :=
  if forbidUnknownValues libs then [[unknownValue]] else [].

(* ------------------------------------------------------------------ *)
(** ** argon2 binding

    The service calls [argon2.hash(pw, ARGON2_OPTIONS)] in the pre-save
    hook and [argon2.verify(hash, candidate)] in comparePassword. The
    binding is a parameter of the model. With the constant options of
    user.model.ts hashing does not fail, so [a2_hash] is total.
    [argon2_contract] is the library's documented behaviour: verify
    against a hash of [p] answers whether the candidate is [p], and a
    string that is not a PHC hash (it does not start with '$') makes
    verify throw. *)

Record Argon2 : Type := {
  a2_hash : string -> string;
  a2_verify : string -> string -> Result bool
}.

Definition phc_shaped (h : string) : bool := Str.startsWith "$" h.

Definition argon2_contract (A : Argon2) : Prop :=
  (forall p q, a2_verify A (a2_hash A p) q = Ok (String.eqb p q)) /\
  (forall h q, phc_shaped h = false -> exists m, a2_verify A h q = Err m).

(** A small instance of the binding, used to run the model on examples. *)
Definition toy_prefix : string := "$argon2id$v=19$m=4096,t=3,p=2$".

Definition toy_argon2 : Argon2 := {|
  a2_hash := fun p => toy_prefix +:+ p;
  a2_verify := fun h q =>
    if Str.startsWith toy_prefix h
    then Ok (String.eqb (String.substring (String.length toy_prefix) (String.length h) h) q)
    else if phc_shaped h then Err "TypeError: invalid hash"
    else Err "TypeError: pchstr must contain a $ as first char"
|}.

(* ------------------------------------------------------------------ *)
(** ** User model (user.model.ts) *)

(** A plain JavaScript object as its list of own fields, in order. *)
Inductive Val : Type :=
| VStr (s : string)
| VBool (b : bool)
| VNum (z : Z).

Definition Obj : Type := list (string * Val).

Definition has_field (k : string) (o : Obj) : bool :=
  existsb (fun kv => String.eqb kv.1 k) o.

(** [const { password, ...rest } = o]: the object without its password. *)
Definition omit_password (o : Obj) : Obj :=
  List.filter (fun kv => negb (String.eqb kv.1 "password")) o.

Record UserDoc : Type := {
  u_id : string;
  u_firstName : string;
  u_lastName : string;
  u_email : string;
  u_password : string;
  u_isVerified : bool;
  u_createdAt : Z;
  u_updatedAt : Z
}.

(** [doc.toObject()] and the [.lean()] result: every stored field,
    including the password hash, and mongoose's version key. *)
Definition user_toObject (u : UserDoc) : Obj :=
  [("_id", VStr (u_id u)); ("firstName", VStr (u_firstName u));
   ("lastName", VStr (u_lastName u)); ("email", VStr (u_email u));
   ("password", VStr (u_password u)); ("isVerified", VBool (u_isVerified u));
   ("createdAt", VNum (u_createdAt u)); ("updatedAt", VNum (u_updatedAt u));
   ("__v", VNum 0)].

(** The public projection of a stored user. *)
Definition user_public (u : UserDoc) : Obj := omit_password (user_toObject u).

(** [User.findOne({ email })]: the first stored document with that exact
    email. *)
Definition findOne (users : list UserDoc) (email : string) : option UserDoc :=
  List.find (fun u => String.eqb (u_email u) email) users.

(** Mongoose's own validation in [save()]: the four [required] string
    paths must be non-empty. Typegoose names the model after the class. *)
Definition mongoose_required (u : UserDoc) : list string :=
  let req (path v : string) :=
    if String.eqb v "" then [path +:+ ": Path `" +:+ path +:+ "` is required."] else [] in
  req "firstName" (u_firstName u) ++ req "lastName" (u_lastName u) ++
  req "email" (u_email u) ++ req "password" (u_password u).

(** [user.save()]: mongoose validation, then the pre-save hook replaces
    the (new, hence modified) password by its argon2 hash, then the
    document is inserted. *)
Definition save_user (A : Argon2) (u : UserDoc) (users : list UserDoc)
  : Result (UserDoc * list UserDoc) :=
  match mongoose_required u with
  | [] =>
      let u' := {| u_id := u_id u; u_firstName := u_firstName u;
                   u_lastName := u_lastName u; u_email := u_email u;
                   u_password := a2_hash A (u_password u);
                   u_isVerified := u_isVerified u; u_createdAt := u_createdAt u;
                   u_updatedAt := u_updatedAt u |} in
      Ok (u', users ++ [u'])
  | errs => Err ("UserModel validation failed: " +:+ Str.join ", " errs)
  end.

(** [userModel.comparePassword(candidate)] *)
Definition comparePassword (A : Argon2) (hash candidatePassword : string) : Result bool :=
  match a2_verify A hash candidatePassword with
  | Ok b => Ok b
  | Err e => Err ("Password comparison error: " +:+ e)
  end.

(* ------------------------------------------------------------------ *)
(** ** UserService (user.service.ts) *)

Record RegisterUserInput : Type := {
  ri_firstName : string;
  ri_lastName : string;
  ri_email : string;
  ri_password : string
}.

Record UState : Type := {
  users : list UserDoc;
  userCache : NodeCache.t Obj
}.

(** [new NodeCache({ stdTTL: 300, checkperiod: 60, useClones: false,
    maxKeys: 10000 })] in the UserService constructor. *)
Definition new_userCache : NodeCache.t Obj := NodeCache.mk 300 10000 ∅.

Definition set_userCache (s : UState) (c : NodeCache.t Obj) : UState :=
  {| users := users s; userCache := c |}.

Definition set_users (s : UState) (l : list UserDoc) : UState :=
  {| users := l; userCache := userCache s |}.

(** [registerUser(userData)]. [node_env] is process.env.NODE_ENV, [uid]
    the ObjectId and [now] the Date.now default that [new User(...)]
    assigns. *)
Definition registerUser (A : Argon2) (libs : Libs) (node_env : string) (now : Z) (uid : string)
    (userData : RegisterUserInput) (s : UState) : Result Obj * UState :=
  let wrap m := "User registration failed: " +:+ m in
  let email := Str.toLowerCase (ri_email userData) in
  match findOne (users s) email with
  | Some _ => (Err (wrap "User with this email already exists"), s)
  | None =>
      let user := {| u_id := uid; u_firstName := ri_firstName userData;
                     u_lastName := ri_lastName userData; u_email := email;
                     u_password := ri_password userData; u_isVerified := false;
                     u_createdAt := now; u_updatedAt := now |} in
      let errors := if String.eqb node_env "production" then [] else validate libs user in
      match errors with
      | _ :: _ =>
          (Err (wrap ("Validation failed: " +:+ Str.join "; " (map (Str.join ", ") errors))), s)
      | [] =>
          match save_user A user (users s) with
          | Err m => (Err (wrap m), s)
          | Ok (savedUser, users') =>
              let userWithoutPassword := omit_password (user_toObject savedUser) in
              let s' := set_users s users' in
              match NodeCache.set (userCache s) now ("user:" +:+ email)
                      userWithoutPassword None with
              | Err m => (Err (wrap m), s')
              | Ok c => (Ok userWithoutPassword, set_userCache s' c)
              end
          end
      end
  end.

(** [findUserByEmail(email)]; a throw from the cache is not caught. *)
Definition findUserByEmail (now : Z) (email : string) (s : UState)
  : Result (option Obj) * UState :=
  let normalizedEmail := Str.toLowerCase email in
  let key := "user:" +:+ normalizedEmail in
  match NodeCache.get (userCache s) now key with
  | (Some cachedUser, c) => (Ok (Some cachedUser), set_userCache s c)
  | (None, c) =>
      let s1 := set_userCache s c in
      match findOne (users s1) normalizedEmail with
      | None => (Ok None, s1)
      | Some user =>
          let userForCache := user_toObject user in
          match NodeCache.set (userCache s1) now key userForCache None with
          | Err m => (Err m, s1)
          | Ok c' => (Ok (Some (user_toObject user)), set_userCache s1 c')
          end
      end
  end.

(** [authenticateUser(email, password)] *)
Definition authenticateUser (A : Argon2) (now : Z) (email password : string) (s : UState)
  : Result Obj * UState :=
  let wrap m := "Authentication failed: " +:+ m in
  let normalizedEmail := Str.toLowerCase email in
  match findOne (users s) normalizedEmail with
  | None => (Err (wrap "Invalid email or password"), s)
  | Some user =>
      match comparePassword A (u_password user) password with
      | Err m => (Err (wrap m), s)
      | Ok false => (Err (wrap "Invalid email or password"), s)
      | Ok true =>
          let userWithoutPassword := omit_password (user_toObject user) in
          match NodeCache.set (userCache s) now ("user:" +:+ normalizedEmail)
                  userWithoutPassword None with
          | Err m => (Err (wrap m), s)
          | Ok c => (Ok userWithoutPassword, set_userCache s c)
          end
      end
  end.

(* ------------------------------------------------------------------ *)
(** ** UserController (user.controller.ts) *)

Record HttpResponse : Type := {
  res_status : Z;
  res_success : bool;
  res_message : string
}.

(** A request-body field: absent ([None]) or a string. [!field] holds for
    an absent field and for the empty string. *)
Definition truthy (f : option string) : bool :=
  match f with Some v => negb (String.eqb v "") | None => false end.

Definition field (f : option string) : string :=
  match f with Some v => v | None => "" end.

Record RegisterBody : Type := {
  rb_firstName : option string;
  rb_lastName : option string;
  rb_email : option string;
  rb_password : option string
}.

Record LoginBody : Type := {
  lb_email : option string;
  lb_password : option string
}.

(** The status [register] picks for an error message. *)
Definition register_error_status (errorMessage : string) : Z :=
  if Str.includes errorMessage "already exists" then 409
  else if Str.includes errorMessage "Validation failed" then 400
  else 500.

Definition register (A : Argon2) (libs : Libs) (node_env : string) (now : Z) (uid : string)
    (body : RegisterBody) (s : UState) : HttpResponse * UState :=
  if negb (truthy (rb_firstName body)) || negb (truthy (rb_lastName body)) ||
     negb (truthy (rb_email body)) || negb (truthy (rb_password body)) then
    ({| res_status := 400; res_success := false;
        res_message := "All fields are required: firstName, lastName, email, password" |}, s)
  else
    let input := {| ri_firstName := field (rb_firstName body);
                    ri_lastName := field (rb_lastName body);
                    ri_email := field (rb_email body);
                    ri_password := field (rb_password body) |} in
    match registerUser A libs node_env now uid input s with
    | (Ok _, s') =>
        ({| res_status := 201; res_success := true;
            res_message := "User registered successfully" |}, s')
    | (Err errorMessage, s') =>
        ({| res_status := register_error_status errorMessage; res_success := false;
            res_message := errorMessage |}, s')
    end.

Definition login (A : Argon2) (now : Z) (body : LoginBody) (s : UState)
  : HttpResponse * UState :=
  if negb (truthy (lb_email body)) || negb (truthy (lb_password body)) then
    ({| res_status := 400; res_success := false;
        res_message := "Email and password are required" |}, s)
  else
    match authenticateUser A now (field (lb_email body)) (field (lb_password body)) s with
    | (Ok _, s') =>
        ({| res_status := 200; res_success := true; res_message := "Login successful" |}, s')
    | (Err errorMessage, s') =>
        ({| res_status := 401; res_success := false; res_message := errorMessage |}, s')
    end.

(* ------------------------------------------------------------------ *)
(** ** Item model (item.model.ts) and ItemService (item.service.ts)

    Prices are JavaScript numbers; they are modelled as rationals (NaN
    and infinities are not modelled). *)

Record Item : Type := {
  i_id : string;
  i_name : string;
  i_price : Q;
  i_createdAt : Z;
  i_description : option string
}.

Record CreateItemInput : Type := {
  ci_name : string;
  ci_price : Q;
  ci_description : option string
}.

(** Values kept in the item cache: one item ([item_<id>]) or the array of
    all items ([all_items]). *)
Inductive ItemVal : Type :=
| IVItem (i : Item)
| IVItems (l : list Item).

Record IState : Type := {
  items : list Item;
  itemCache : NodeCache.t ItemVal
}.

(** [new NodeCache({ stdTTL: 600, checkperiod: 60, useClones: false,
    maxKeys: 10000 })] in the ItemService constructor. *)
Definition new_itemCache : NodeCache.t ItemVal := NodeCache.mk 600 10000 ∅.

Definition set_itemCache (s : IState) (c : NodeCache.t ItemVal) : IState :=
  {| items := items s; itemCache := c |}.

(** The MongoDB connection as the item queries see it. connectToDatabase
    sets [bufferCommands] to false, so a query or a save issued while the
    connection is down rejects at once instead of waiting for a
    reconnection: [DbDown e], every operation rejects with the driver's
    error message [e]. *)
Inductive DbConn : Type :=
| DbUp
| DbDown (e : string).

(** [Item.find().lean().exec()] *)
Definition Item_find (conn : DbConn) (l : list Item) : Result (list Item) :=
  match conn with DbUp => Ok l | DbDown e => Err e end.

(** Mongoose's validation in [item.save()]: the [required] paths. A
    string path counts as missing when it is empty; the price is a number
    here, hence present. *)
Definition item_required (i : Item) : list string :=
  if String.eqb (i_name i) "" then ["name: Path `name` is required."] else [].

(** [item.save()]: mongoose's validation, then the insertion. *)
Definition save_item (conn : DbConn) (i : Item) (l : list Item) : Result (list Item) :=
  match item_required i with
  | [] => match conn with DbUp => Ok (l ++ [i]) | DbDown e => Err e end
  | errs => Err ("ItemModel validation failed: " +:+ Str.join ", " errs)
  end.

(** [createItem(itemData)]; [oid] is the ObjectId's hex string
    ([item.id]) and [now] the createdAt default that [new Item(...)]
    assigns. Errors are rethrown as they are. *)
Definition createItem (libs : Libs) (conn : DbConn) (now : Z) (oid : string)
    (itemData : CreateItemInput) (s : IState) : Result Item * IState :=
  let item := {| i_id := oid; i_name := ci_name itemData; i_price := ci_price itemData;
                 i_createdAt := now; i_description := ci_description itemData |} in
  match validate libs item with
  | (_ :: _) as errors =>
      (Err ("Validation failed: " +:+ Str.join ", " (map (Str.join ", ") errors)), s)
  | [] =>
      match save_item conn item (items s) with
      | Err m => (Err m, s)
      | Ok l =>
          let s' := {| items := l; itemCache := itemCache s |} in
          match NodeCache.set (itemCache s') now ("item_" +:+ oid) (IVItem item) None with
          | Err m => (Err m, s')
          | Ok c => (Ok item, set_itemCache s' c)
          end
      end
  end.

(** [getAllItems()]: whatever is cached under [all_items], else every
    stored item, cached under [all_items] for 300 seconds; a failing
    query or cache write becomes 'Failed to retrieve items'. *)
Definition getAllItems (conn : DbConn) (now : Z) (s : IState) : Result ItemVal * IState :=
  match NodeCache.get (itemCache s) now "all_items" with
  | (Some cachedItems, c) => (Ok cachedItems, set_itemCache s c)
  | (None, c) =>
      let s1 := set_itemCache s c in
      match Item_find conn (items s1) with
      | Err _ => (Err "Failed to retrieve items", s1)
      | Ok all =>
          match NodeCache.set (itemCache s1) now "all_items" (IVItems all) (Some 300) with
          | Err _ => (Err "Failed to retrieve items", s1)
          | Ok c' => (Ok (IVItems all), set_itemCache s1 c')
          end
      end
  end.

(** [invalidateCache(id?)]: an empty id is falsy, like a missing one. *)
Definition invalidateCache (id : option string) (s : IState) : IState :=
  let c := if truthy id then NodeCache.del (itemCache s) ("item_" +:+ field id)
           else itemCache s in
  set_itemCache s (NodeCache.del c "all_items").

(* ------------------------------------------------------------------ *)
(** ** The user a successful registration stores *)

Definition created_user (A : Argon2) (now : Z) (uid : string) (inp : RegisterUserInput)
  : UserDoc :=
  {| u_id := uid; u_firstName := ri_firstName inp; u_lastName := ri_lastName inp;
     u_email := Str.toLowerCase (ri_email inp); u_password := a2_hash A (ri_password inp);
     u_isVerified := false; u_createdAt := now; u_updatedAt := now |}.

(* ------------------------------------------------------------------ *)
(** ** Concrete states used by the examples *)

Definition users_empty : UState := {| users := []; userCache := new_userCache |}.

Definition reg_input (e p : string) : RegisterUserInput :=
  {| ri_firstName := "Test"; ri_lastName := "User"; ri_email := e; ri_password := p |}.

Definition reg_body (e p : string) : RegisterBody :=
  {| rb_firstName := Some "Test"; rb_lastName := Some "User";
     rb_email := Some e; rb_password := Some p |}.

Definition login_body (e p : string) : LoginBody :=
  {| lb_email := Some e; lb_password := Some p |}.

(** A store holding one registered user, whose stored hash is the toy
    binding's hash of "Password123!". *)
Definition alice : UserDoc :=
  created_user toy_argon2 0 "u1" (reg_input "alice@example.com" "Password123!").

Definition users_alice : UState := {| users := [alice]; userCache := new_userCache |}.

(** A store whose only record has a password field that is not a PHC
    hash string. *)
Definition bob_corrupt : UserDoc :=
  {| u_id := "u2"; u_firstName := "Bob"; u_lastName := "B"; u_email := "bob@example.com";
     u_password := "corrupt"; u_isVerified := false; u_createdAt := 0; u_updatedAt := 0 |}.

Definition users_bob : UState := {| users := [bob_corrupt]; userCache := new_userCache |}.

(** The item [createItem] builds and stores. *)
Definition new_item (now : Z) (oid : string) (inp : CreateItemInput) : Item :=
  {| i_id := oid; i_name := ci_name inp; i_price := ci_price inp;
     i_createdAt := now; i_description := ci_description inp |}.

Definition item_input (name : string) (price : Q) : CreateItemInput :=
  {| ci_name := name; ci_price := price; ci_description := None |}.

Definition widget : Item := new_item 0 "1" (item_input "Widget" (Qmake 0 1)).

(** An item whose id is an ObjectId hex string. *)
Definition gadget_id : string := "65a1f0c2e4b0a1b2c3d4e5f6".

Definition gadget : Item := new_item 0 gadget_id (item_input "Gadget" (Qmake 0 1)).

Definition items_empty : IState := {| items := []; itemCache := new_itemCache |}.

(** A cache holding item 1 and the aggregate entry. *)
Definition items_two : IState :=
  {| items := [widget];
     itemCache := NodeCache.mk 600 10000
       (<["item_1" := (IVItem widget, 600000)]>
          (<["all_items" := (IVItems [widget], 300000)]> ∅)) |}.

(** Ten thousand distinct item ids "0000" .. "9999". *)
Definition decimal_digits : list string :=
  ["0"; "1"; "2"; "3"; "4"; "5"; "6"; "7"; "8"; "9"].

Definition ids4 : list string :=
  flat_map (fun a => flat_map (fun b => flat_map (fun c =>
    map (fun d => a +:+ b +:+ c +:+ d) decimal_digits) decimal_digits) decimal_digits)
    decimal_digits.

Definition item_entries (ids : list string) : gmap string (ItemVal * Z) :=
  list_to_map (map (fun id => ("item_" +:+ id,
                              (IVItem (new_item 0 id (item_input "Widget" (Qmake 0 1))), 600000)))
                   ids).

(** An item cache that has reached maxKeys, and one that is one key
    short of it. *)
Definition items_full : IState :=
  {| items := []; itemCache := NodeCache.mk 600 10000 (item_entries ids4) |}.

Definition items_almost_full : IState :=
  {| items := []; itemCache := NodeCache.mk 600 10000 (item_entries (tail ids4)) |}.

(* ------------------------------------------------------------------ *)
(** ** UserService.clearCache and the UserModel fullName getter *)

(** [clearCache(email?)]: a truthy email removes that user's entry, under
    the lowercased key; a missing or empty email flushes the whole cache. *)
Definition clearCache (email : option string) (s : UState) : UState :=
  if truthy email
  then set_userCache s (NodeCache.del (userCache s) ("user:" +:+ Str.toLowerCase (field email)))
  else set_userCache s (NodeCache.flushAll (userCache s)).

(** [get fullName()]: [`${this.firstName} ${this.lastName}`]. *)
Definition fullName (u : UserDoc) : string := u_firstName u +:+ " " +:+ u_lastName u.

(* ------------------------------------------------------------------ *)
(** ** ItemModel.getPriceWithTax and ItemService.getItemById *)

(** [item.getPriceWithTax(taxRate = 0.1)]; [None] is an omitted argument. *)
Definition getPriceWithTax (i : Item) (taxRate : option Q) : Q :=
  let r := match taxRate with Some r => r | None => (1 # 10)%Q end in
  (i_price i * (1 + r))%Q.

(** [new ObjectId(id)] for a string, as mongoose casts the argument of
    [findById]: 24 hexadecimal digits, read case-insensitively (the
    ObjectId's hex string is lowercase), or, where bson accepts it, a
    string of 12 characters whose UTF-8 encoding has 12 bytes (here: 12
    ASCII characters), read as those bytes. Anything else is refused
    with a CastError. *)
Definition hex_digit (n : nat) : ascii :=
  ascii_of_nat (if (n <? 10)%nat then 48 + n else 87 + n).

Definition hex_byte (c : ascii) : string :=
  String (hex_digit (nat_of_ascii c / 16)) (String (hex_digit (nat_of_ascii c mod 16)) "").

Fixpoint hex_of (s : string) : string :=
  match s with
  | EmptyString => EmptyString
  | String c r => hex_byte c +:+ hex_of r
  end.

Definition castObjectId (libs : Libs) (id : string) : option string :=
  if (String.length id =? 24)%nat && Str.all_chars Validator.is_hex id
  then Some (Str.toLowerCase id)
  else if objectId_from_12_chars libs && (String.length id =? 12)%nat &&
          Str.all_chars (fun c => (nat_of_ascii c <? 128)%nat) id
  then Some (hex_of id)
  else None.

(** The message of mongoose's CastError for [findById(id)]. *)
Definition dquote : string := String (ascii_of_nat 34) EmptyString.

Definition castError (id : string) : string :=
  "Cast to ObjectId failed for value " +:+ dquote +:+ id +:+ dquote +:+
  " (type string) at path " +:+ dquote +:+ "_id" +:+ dquote +:+
  " for model " +:+ dquote +:+ "ItemModel" +:+ dquote.

(** [Item.findById(id).lean().exec()]: the cast of [id], then the query.
    Stored item ids ([i_id]) are ObjectId hex strings. *)
Definition Item_findById (libs : Libs) (conn : DbConn) (l : list Item) (id : string)
  : Result (option Item) :=
  match castObjectId libs id with
  | None => Err (castError id)
  | Some oid =>
      match conn with
      | DbDown e => Err e
      | DbUp => Ok (List.find (fun i => String.eqb (i_id i) oid) l)
      end
  end.

(** [getItemById(id)]: the value cached under [item_<id>], else the
    stored item, cached under that key with the default TTL; any throw
    (CastError, failing query, ECACHEFULL) becomes 'Failed to retrieve
    item'. *)
Definition getItemById (libs : Libs) (conn : DbConn) (now : Z) (id : string) (s : IState)
  : Result (option ItemVal) * IState :=
  let key := "item_" +:+ id in
  match NodeCache.get (itemCache s) now key with
  | (Some cachedItem, c) => (Ok (Some cachedItem), set_itemCache s c)
  | (None, c) =>
      let s1 := set_itemCache s c in
      match Item_findById libs conn (items s1) id with
      | Err _ => (Err "Failed to retrieve item", s1)
      | Ok None => (Ok None, s1)
      | Ok (Some item) =>
          match NodeCache.set (itemCache s1) now key (IVItem item) None with
          | Err _ => (Err "Failed to retrieve item", s1)
          | Ok c' => (Ok (Some (IVItem item)), set_itemCache s1 c')
          end
      end
  end.

(* ------------------------------------------------------------------ *)
(** ** ItemController (item.controller.ts) *)

(** The body of POST /items: [name] absent or a string, [price] absent
    ([undefined]) or a number. *)
Record ItemBody : Type := {
  ib_name : option string;
  ib_price : option Q;
  ib_description : option string
}.

Module ItemController.

(** [createItem]: 400 when [!name || price === undefined], 201 on
    success, 400 for every error the service throws. *)
Definition createItem (libs : Libs) (conn : DbConn) (now : Z) (oid : string) (body : ItemBody)
    (s : IState) : HttpResponse * IState :=
  match truthy (ib_name body), ib_price body with
  | true, Some price =>
      let itemData := {| ci_name := field (ib_name body); ci_price := price;
                         ci_description := ib_description body |} in
      match createItem libs conn now oid itemData s with
      | (Ok _, s') =>
          ({| res_status := 201; res_success := true;
              res_message := "Item created successfully" |}, s')
      | (Err errorMessage, s') =>
          ({| res_status := 400; res_success := false; res_message := errorMessage |}, s')
      end
  | _, _ =>
      ({| res_status := 400; res_success := false;
          res_message := "Name and price are required fields" |}, s)
  end.

(** [getAllItems]: 200, or 500 with the error's message. *)
Definition getAllItems (conn : DbConn) (now : Z) (s : IState) : HttpResponse * IState :=
  match getAllItems conn now s with
  | (Ok _, s') =>
      ({| res_status := 200; res_success := true;
          res_message := "Items retrieved successfully" |}, s')
  | (Err errorMessage, s') =>
      ({| res_status := 500; res_success := false; res_message := errorMessage |}, s')
  end.

(** [getItemById]: 404 when the service returns null, 200 with the item,
    500 with the error's message. *)
Definition getItemById (libs : Libs) (conn : DbConn) (now : Z) (id : string) (s : IState)
  : HttpResponse * IState :=
  match getItemById libs conn now id s with
  | (Ok None, s') =>
      ({| res_status := 404; res_success := false; res_message := "Item not found" |}, s')
  | (Ok (Some _), s') =>
      ({| res_status := 200; res_success := true;
          res_message := "Item retrieved successfully" |}, s')
  | (Err errorMessage, s') =>
      ({| res_status := 500; res_success := false; res_message := errorMessage |}, s')
  end.

End ItemController.

(* ------------------------------------------------------------------ *)
(** ** Environment: validateEnv and config *)

(** [process.env]: each variable unset ([None]) or a string. *)
Definition Env : Type := string -> option string.

Definition requiredEnvVars : list string := ["NODE_ENV"; "MONGODB_URI"; "PORT"].

(** [validateEnv()]: the lines it prints and the exit code it ends the
    process with ([None]: it returns). The check-mark emoji of the success
    line is left out. *)
Definition validateEnv (env : Env) : list string * option Z :=
  let missing := List.filter (fun v => negb (truthy (env v))) requiredEnvVars in
  match missing with
  | [] => (["All required environment variables are set"], None)
  | _ :: _ =>
      (["Error: Missing required environment variables:"; Str.join ", " missing], Some 1)
  end.

(** [config.environment]: NODE_ENV, unless it is unset, empty or the
    string 'undefined' (what [process.env.X = undefined] stores). *)
Definition config_environment (env : Env) : string :=
  match env "NODE_ENV" with
  | Some v => if String.eqb v "" || String.eqb v "undefined" then "development" else v
  | None => "development"
  end.

(** [parseInt(s)] with no radix, on ASCII input, as an exact integer;
    [None] is NaN. Leading white space is skipped, then an optional sign,
    then a '0x'/'0X' prefix selects radix 16; the value is the longest
    prefix of digits of the radix. *)
Definition is_js_space (c : ascii) : bool :=
  let n := nat_of_ascii c in ((9 <=? n)%nat && (n <=? 13)%nat) || (n =? 32)%nat.

Fixpoint trim_start (s : string) : string :=
  match s with
  | String c r => if is_js_space c then trim_start r else s
  | EmptyString => EmptyString
  end.

Definition digit_value (c : ascii) : Z :=
  let n := Z.of_nat (nat_of_ascii c) in
  if (48 <=? n) && (n <=? 57) then n - 48
  else if (97 <=? n) && (n <=? 122) then n - 87
  else if (65 <=? n) && (n <=? 90) then n - 55
  else 36.

Fixpoint digits_prefix (radix : Z) (s : string) (acc : Z) (count : nat) : Z * nat :=
  match s with
  | String c r =>
      if digit_value c <? radix then digits_prefix radix r (acc * radix + digit_value c) (S count)
      else (acc, count)
  | EmptyString => (acc, count)
  end.

Definition parseInt (s : string) : option Z :=
  let s1 := trim_start s in
  let '(sign, s2) :=
    match s1 with
    | String c r =>
        if Ascii.eqb c "-"%char then (-1, r)
        else if Ascii.eqb c "+"%char then (1, r) else (1, s1)
    | EmptyString => (1, s1)
    end in
  let '(radix, s3) :=
    match s2 with
    | String c (String x r) =>
        if Ascii.eqb c "0"%char && (Ascii.eqb x "x"%char || Ascii.eqb x "X"%char)
        then (16, r) else (10, s2)
    | _ => (10, s2)
    end in
  match digits_prefix radix s3 0 0 with
  | (_, O) => None
  | (n, S _) => Some (sign * n)
  end.

(** [config.port]; [None] is NaN. *)
Definition config_port (env : Env) : option Z :=
  match env "PORT" with
  | Some p => if negb (String.eqb p "") && negb (String.eqb p "undefined") then parseInt p
              else Some 3000
  | None => Some 3000
  end.

(* ------------------------------------------------------------------ *)
(** ** startServer: clustered primary or listening server *)

(** The options of [startServer] that choose the mode. *)
Record StartOptions : Type := {
  so_environment : option string;
  so_enableClustering : option bool
}.

Inductive ServerMode : Type :=
| Clustered (workerCount : Z)
| Serving (env : string).

(** The branch [startServer(options)] takes: a primary with clustering
    enabled forks [Math.min(numCPUs, 4)] workers; otherwise the app
    listens, in environment [env]. *)
Definition startServer_mode (options : StartOptions) (config_env : string) (isPrimary : bool)
    (numCPUs : Z) : ServerMode :=
  let env := if truthy (so_environment options) then field (so_environment options)
             else config_env in
  let enableClustering :=
    match so_enableClustering options with
    | Some b => b
    | None => String.eqb env "production"
    end in
  if enableClustering && isPrimary then Clustered (Z.min numCPUs 4) else Serving env.

(** The options the entry point passes:
    [{ enableClustering: process.env.ENABLE_CLUSTERING === 'true' }]. *)
Definition main_options (env : Env) : StartOptions :=
  {| so_environment := None;
     so_enableClustering :=
       Some (match env "ENABLE_CLUSTERING" with Some v => String.eqb v "true" | None => false end) |}.

(* ------------------------------------------------------------------ *)
(** ** Database connection (connectToDatabase, disconnectFromDatabase)

    The module-level [isConnected] flag, the listener sets registered on
    [mongoose.connection] (one set of 'error', 'disconnected' and
    'reconnected' listeners per successful [mongoose.connect]) and the
    number of [mongoose.connect] calls. *)

Record DbState : Type := {
  isConnected : bool;
  listenerSets : nat;
  connectCalls : nat
}.

Inductive DbEvent : Type :=
| DbConnect (succeeds : bool)
| DbDisconnect (succeeds : bool)
| DbDisconnectedEvent
| DbReconnectedEvent.

(** One call or connection event; [None]: the process exited
    ([process.exit(1)] after a failed connect). *)
Definition db_step (st : DbState) (e : DbEvent) : option DbState :=
  match e with
  | DbConnect ok =>
      if isConnected st then Some st
      else if ok then Some {| isConnected := true; listenerSets := S (listenerSets st);
                              connectCalls := S (connectCalls st) |}
      else None
  | DbDisconnect ok =>
      if isConnected st && ok
      then Some {| isConnected := false; listenerSets := listenerSets st;
                   connectCalls := connectCalls st |}
      else Some st
  | DbDisconnectedEvent =>
      if (0 <? listenerSets st)%nat
      then Some {| isConnected := false; listenerSets := listenerSets st;
                   connectCalls := connectCalls st |}
      else Some st
  | DbReconnectedEvent =>
      if (0 <? listenerSets st)%nat
      then Some {| isConnected := true; listenerSets := listenerSets st;
                   connectCalls := connectCalls st |}
      else Some st
  end.

Fixpoint db_run (st : DbState) (es : list DbEvent) : option DbState :=
  match es with
  | [] => Some st
  | e :: r => match db_step st e with Some st' => db_run st' r | None => None end
  end.

Definition db_initial : DbState := {| isConnected := false; listenerSets := 0; connectCalls := 0 |}.

(** An environment given by its set variables. *)
Definition env_of (l : list (string * string)) : Env :=
  fun k => match List.find (fun kv => String.eqb kv.1 k) l with
           | Some kv => Some kv.2
           | None => None
           end.

(* ================================================================== *)
(** * Properties *)

(** ** Helper lemmas *)

Lemma eqb_false_of_neq (x y : string) : x <> y -> String.eqb x y = false.
Proof. apply String.eqb_neq. Qed.

Lemma findOne_app (l1 l2 : list UserDoc) (e : string) :
  findOne (l1 ++ l2) e =
  match findOne l1 e with Some u => Some u | None => findOne l2 e end.
Proof.
  induction l1 as [|u l1 IH]; simpl; [reflexivity|].
  unfold findOne in *; simpl. destruct (String.eqb (u_email u) e); [reflexivity|exact IH].
Qed.

Lemma startsWith_app (p q : string) : Str.startsWith p (p +:+ q) = true.
Proof. induction p as [|c p IH]; simpl; [reflexivity|]. rewrite Ascii.eqb_refl. exact IH. Qed.

Lemma startsWith_dollar (p h : string) :
  Str.startsWith (String "$" p) h = true -> phc_shaped h = true.
Proof.
  intros H. unfold phc_shaped. destruct h as [|c h]; [discriminate|].
  cbn [Str.startsWith] in *. apply andb_prop in H as [H _]. rewrite H. reflexivity.
Qed.

Lemma substring_0_all (s : string) (m : nat) :
  (String.length s <= m)%nat -> String.substring 0 m s = s.
Proof.
  revert m. induction s as [|c s IH]; intros m Hm; destruct m; simpl in *;
    try reflexivity; try lia.
  f_equal. apply IH. lia.
Qed.

Lemma substring_after_prefix_le (p q : string) (m : nat) :
  (String.length q <= m)%nat -> String.substring (String.length p) m (p +:+ q) = q.
Proof.
  intros Hm. induction p as [|c p IH]; simpl.
  - apply substring_0_all. exact Hm.
  - exact IH.
Qed.

Lemma length_append_ge (p q : string) :
  (String.length q <= String.length (p +:+ q))%nat.
Proof. induction p as [|c p IH]; simpl; [apply le_n | apply le_S; exact IH]. Qed.

Lemma substring_after_prefix (p q : string) :
  String.substring (String.length p) (String.length (p +:+ q)) (p +:+ q) = q.
Proof. apply substring_after_prefix_le, length_append_ge. Qed.

Lemma toy_argon2_contract : argon2_contract toy_argon2.
Proof.
  split.
  - intros p q. cbn [a2_verify a2_hash toy_argon2]. rewrite startsWith_app, substring_after_prefix. reflexivity.
  - intros h q Hh. cbn [a2_verify toy_argon2].
    destruct (Str.startsWith toy_prefix h) eqn:E.
    + exfalso. apply startsWith_dollar in E. congruence.
    + rewrite Hh. eexists. reflexivity.
Qed.

Lemma has_password_omit (o : Obj) : has_field "password" (omit_password o) = false.
Proof.
  induction o as [|[k v] o IH]; simpl; [reflexivity|].
  destruct (String.eqb k "password") eqn:E; simpl; [exact IH|].
  rewrite E. exact IH.
Qed.

Lemma toLowerCase_idem (s : string) : Str.toLowerCase (Str.toLowerCase s) = Str.toLowerCase s.
Proof.
  induction s as [|c s IH]; simpl; [reflexivity|]. rewrite IH. f_equal.
  unfold Str.ascii_lower.
  destruct ((65 <=? nat_of_ascii c)%nat && (nat_of_ascii c <=? 90)%nat) eqn:E.
  - apply andb_prop in E as [E1 E2]. apply Nat.leb_le in E1, E2.
    rewrite nat_ascii_embedding by lia.
    replace ((65 <=? nat_of_ascii c + 32)%nat && (nat_of_ascii c + 32 <=? 90)%nat) with false.
    + reflexivity.
    + symmetry. apply andb_false_iff. right. apply Nat.leb_gt. lia.
  - rewrite E. reflexivity.
Qed.

Lemma toLowerCase_nonempty (e : string) : e <> "" -> Str.toLowerCase e <> "".
Proof. destruct e; simpl; [congruence|discriminate]. Qed.

Lemma mongoose_required_ok (u : UserDoc) :
  u_firstName u <> "" -> u_lastName u <> "" -> u_email u <> "" -> u_password u <> "" ->
  mongoose_required u = [].
Proof.
  intros H1 H2 H3 H4. unfold mongoose_required. cbv beta zeta.
  rewrite !eqb_false_of_neq by assumption. reflexivity.
Qed.

(** The validation step of registerUser and createItem: skipped in
    production (registerUser only), and otherwise empty exactly when
    [forbidUnknownValues] is off. *)
Lemma validate_gate_ok {D : Type} (libs : Libs) (node_env : string) (d : D) :
  node_env = "production" \/ forbidUnknownValues libs = false ->
  (if String.eqb node_env "production" then [] else validate libs d) = [].
Proof.
  intros [-> | Hf]; [reflexivity|].
  destruct (String.eqb node_env "production"); [reflexivity|].
  unfold validate. rewrite Hf. reflexivity.
Qed.

Lemma validate_gate_fails {D : Type} (libs : Libs) (node_env : string) (d : D) :
  node_env <> "production" -> forbidUnknownValues libs = true ->
  (if String.eqb node_env "production" then [] else validate libs d) = [[unknownValue]].
Proof.
  intros Hn Hf. rewrite eqb_false_of_neq by exact Hn. unfold validate. rewrite Hf. reflexivity.
Qed.

(** A registration that passes the existence check, the validation step,
    mongoose's required checks and the cache bound stores the new user and
    returns its public projection. *)
Lemma registerUser_created (A : Argon2) (libs : Libs) (node_env : string) (now : Z)
    (uid : string) (inp : RegisterUserInput) (s : UState) :
  findOne (users s) (Str.toLowerCase (ri_email inp)) = None ->
  ri_firstName inp <> "" -> ri_lastName inp <> "" -> ri_email inp <> "" ->
  ri_password inp <> "" ->
  (node_env = "production" \/ forbidUnknownValues libs = false) ->
  NodeCache.full (userCache s) = false ->
  exists c, registerUser A libs node_env now uid inp s =
    (Ok (user_public (created_user A now uid inp)),
     {| users := users s ++ [created_user A now uid inp]; userCache := c |}).
Proof.
  intros Hfind H1 H2 H3 H4 Henv Hfull.
  unfold registerUser. cbv zeta. rewrite Hfind.
  rewrite (validate_gate_ok libs node_env _ Henv). unfold save_user.
  rewrite mongoose_required_ok; cbn [u_firstName u_lastName u_email u_password];
    try assumption; [| apply toLowerCase_nonempty; assumption].
  unfold NodeCache.set. rewrite Hfull.
  eexists. reflexivity.
Qed.

(** A registration whose lowercased email is already stored fails at the
    existence check and changes nothing. *)
Lemma registerUser_duplicate (A : Argon2) (libs : Libs) (node_env : string) (now : Z)
    (uid : string) (inp : RegisterUserInput) (s : UState) (u : UserDoc) :
  findOne (users s) (Str.toLowerCase (ri_email inp)) = Some u ->
  registerUser A libs node_env now uid inp s =
    (Err "User registration failed: User with this email already exists", s).
Proof. intros Hfind. unfold registerUser. cbv zeta. rewrite Hfind. reflexivity. Qed.

Lemma findOne_created (A : Argon2) (now : Z) (uid : string) (inp : RegisterUserInput)
    (l : list UserDoc) :
  findOne l (Str.toLowerCase (ri_email inp)) = None ->
  findOne (l ++ [created_user A now uid inp]) (Str.toLowerCase (ri_email inp)) =
    Some (created_user A now uid inp).
Proof.
  intros H. rewrite findOne_app, H. unfold findOne. simpl.
  rewrite String.eqb_refl. reflexivity.
Qed.

(* ------------------------------------------------------------------ *)
(** ** C1: registration, then a duplicate registration *)

(** The message of a registration stopped by class-validator's
    unknown-value error. *)
Definition registration_unknownValue : string :=
  "User registration failed: Validation failed: " +:+ unknownValue.

(** Outside production, with [forbidUnknownValues] on, a registration of
    a new email fails at the validation step, whatever the field values,
    and changes nothing. *)
Lemma registerUser_unknownValue (A : Argon2) (libs : Libs) (node_env : string) (now : Z)
    (uid : string) (inp : RegisterUserInput) (s : UState) :
  findOne (users s) (Str.toLowerCase (ri_email inp)) = None ->
  node_env <> "production" -> forbidUnknownValues libs = true ->
  registerUser A libs node_env now uid inp s = (Err registration_unknownValue, s).
Proof.
  intros Hfind Hn Hf. unfold registerUser. cbv zeta. rewrite Hfind.
  rewrite (validate_gate_fails libs node_env _ Hn Hf). reflexivity.
Qed.




(* ------------------------------------------------------------------ *)
(** ** C2: no user enumeration through the login error *)

Definition invalid_credentials : string := "Authentication failed: Invalid email or password".

Lemma authenticateUser_unknown (A : Argon2) (now : Z) (email password : string) (s : UState) :
  findOne (users s) (Str.toLowerCase email) = None ->
  authenticateUser A now email password s = (Err invalid_credentials, s).
Proof. intros H. unfold authenticateUser. cbv zeta. rewrite H. reflexivity. Qed.

Lemma authenticateUser_wrong_password (A : Argon2) (now : Z) (email password : string)
    (s : UState) (u : UserDoc) :
  findOne (users s) (Str.toLowerCase email) = Some u ->
  comparePassword A (u_password u) password = Ok false ->
  authenticateUser A now email password s = (Err invalid_credentials, s).
Proof. intros H Hc. unfold authenticateUser. cbv zeta. rewrite H, Hc. reflexivity. Qed.

Lemma comparePassword_hash (A : Argon2) (Hc : argon2_contract A) (p q : string) :
  comparePassword A (a2_hash A p) q = Ok (String.eqb p q).
Proof. unfold comparePassword. destruct Hc as [Hv _]. rewrite Hv. reflexivity. Qed.

(** C2. For any argon2 binding that behaves as documented: a login whose
    email matches no stored record, and a login whose email matches a
    record holding the hash of a password [p] but that supplies another
    password, both fail in the service with the same message
    'Authentication failed: Invalid email or password', and the two
    HTTP responses are identical (401, same message). *)
Theorem C2_same_error_unknown_or_wrong_password (A : Argon2) (Hc : argon2_contract A)
    (now1 now2 : Z) (e1 p1 e2 p2 p : string) (s1 s2 : UState) (u : UserDoc) :
  findOne (users s1) (Str.toLowerCase e1) = None ->
  findOne (users s2) (Str.toLowerCase e2) = Some u ->
  u_password u = a2_hash A p -> p <> p2 ->
  e1 <> "" -> p1 <> "" -> e2 <> "" -> p2 <> "" ->
  (authenticateUser A now1 e1 p1 s1).1 = Err invalid_credentials /\
  (authenticateUser A now2 e2 p2 s2).1 = Err invalid_credentials /\
  (login A now1 (login_body e1 p1) s1).1 = (login A now2 (login_body e2 p2) s2).1.
Proof.
  intros Hn Hs Hpw Hne He1 Hp1 He2 Hp2.
  assert (Hwrong : comparePassword A (u_password u) p2 = Ok false).
  { rewrite Hpw, (comparePassword_hash A Hc). rewrite eqb_false_of_neq by exact Hne.
    reflexivity. }
  rewrite (authenticateUser_unknown A now1 e1 p1 s1 Hn).
  rewrite (authenticateUser_wrong_password A now2 e2 p2 s2 u Hs Hwrong).
  split; [reflexivity|]. split; [reflexivity|].
  unfold login. cbn [login_body lb_email lb_password truthy field].
  rewrite !eqb_false_of_neq by assumption. cbn [negb orb].
  rewrite (authenticateUser_unknown A now1 e1 p1 s1 Hn).
  rewrite (authenticateUser_wrong_password A now2 e2 p2 s2 u Hs Hwrong).
  reflexivity.
Qed.

(** Witness for C2: "nobody@example.com" is unknown, "alice@example.com"
    is registered with "Password123!" and is tried with "wrong". *)
Lemma C2_same_error_unknown_or_wrong_password_witness :
  (authenticateUser toy_argon2 0 "nobody@example.com" "Password123!" users_alice).1 =
    Err invalid_credentials /\
  (authenticateUser toy_argon2 0 "alice@example.com" "wrong" users_alice).1 =
    Err invalid_credentials /\
  (login toy_argon2 0 (login_body "nobody@example.com" "Password123!") users_alice).1 =
  (login toy_argon2 0 (login_body "alice@example.com" "wrong") users_alice).1.
Proof.
  apply (C2_same_error_unknown_or_wrong_password toy_argon2 toy_argon2_contract 0 0
           "nobody@example.com" "Password123!" "alice@example.com" "wrong" "Password123!"
           users_alice users_alice alice);
    try reflexivity; try discriminate.
Defined.

(* ------------------------------------------------------------------ *)
(** ** C7: password verification *)

(** C7. For any argon2 binding that behaves as documented,
    comparePassword answers true for the hash of the same password and
    false, without throwing, for any other candidate; a stored value that
    is not a hash string makes it throw 'Password comparison error: ...',
    and authenticateUser then fails with a message different from the
    wrong-password one. *)
Theorem C7_comparePassword_spec (A : Argon2) (Hc : argon2_contract A) :
  (forall p, comparePassword A (a2_hash A p) p = Ok true) /\
  (forall p q, p <> q -> comparePassword A (a2_hash A p) q = Ok false) /\
  (forall h q, phc_shaped h = false ->
     exists m, comparePassword A h q = Err ("Password comparison error: " +:+ m)) /\
  (forall now email q s u, findOne (users s) (Str.toLowerCase email) = Some u ->
     phc_shaped (u_password u) = false ->
     exists m, (authenticateUser A now email q s).1 = Err m /\ m <> invalid_credentials).
Proof.
  assert (Herr : forall h q, phc_shaped h = false ->
            exists m, comparePassword A h q = Err ("Password comparison error: " +:+ m)).
  { intros h q Hh. destruct Hc as [_ Hbad]. destruct (Hbad h q Hh) as [m Hm].
    exists m. unfold comparePassword. rewrite Hm. reflexivity. }
  split; [|split; [|split]].
  - intros p. rewrite (comparePassword_hash A Hc), String.eqb_refl. reflexivity.
  - intros p q Hpq. rewrite (comparePassword_hash A Hc), eqb_false_of_neq by exact Hpq.
    reflexivity.
  - exact Herr.
  - intros now email q s u Hfind Hh. destruct (Herr _ q Hh) as [m Hm].
    eexists. split.
    + unfold authenticateUser. cbv zeta. rewrite Hfind, Hm. reflexivity.
    + unfold invalid_credentials. intros Heq. simpl in Heq. discriminate Heq.
Qed.

(** Witness for C7, with the toy binding. *)
Lemma C7_comparePassword_spec_witness :
  comparePassword toy_argon2 (a2_hash toy_argon2 "secret") "secret" = Ok true /\
  comparePassword toy_argon2 (a2_hash toy_argon2 "secret") "wrong" = Ok false.
Proof.
  destruct (C7_comparePassword_spec toy_argon2 toy_argon2_contract) as [H1 [H2 _]].
  split; [apply H1 | apply H2; discriminate].
Defined.

(* ------------------------------------------------------------------ *)
(** ** C3: what the user cache receives *)

Lemma set_lookup {V} (c c' : NodeCache.t V) (now : Z) (key : string) (v : V)
    (ttl : option Z) (k : string) (x : V * Z) :
  NodeCache.set c now key v ttl = Ok c' ->
  NodeCache.data c' !! k = Some x ->
  NodeCache.data c !! k = Some x \/ (k = key /\ x.1 = v).
Proof.
  unfold NodeCache.set. destruct (NodeCache.full c); [discriminate|].
  intros E. injection E as <-. cbn [NodeCache.data].
  rewrite lookup_insert. case_decide as Hk.
  - intros Hx. injection Hx as <-. right. auto.
  - intros Hx. left. exact Hx.
Qed.

(** registerUser writes only the public projection to the cache. *)
Lemma registerUser_caches_public (A : Argon2) (libs : Libs) (node_env : string) (now : Z)
    (uid : string)
    (inp : RegisterUserInput) (s : UState) (k : string) (x : Obj * Z) :
  NodeCache.data (userCache (registerUser A libs node_env now uid inp s).2) !! k = Some x ->
  NodeCache.data (userCache s) !! k = Some x \/ has_field "password" x.1 = false.
Proof.
  unfold registerUser. cbv zeta.
  destruct (findOne (users s) _); [auto|].
  destruct (if String.eqb node_env "production" then [] else validate libs _); [|auto].
  destruct (save_user _ _ _) as [[savedUser users']|m]; [|auto].
  destruct (NodeCache.set _ _ _ _ _) as [c|m] eqn:E; [|auto].
  cbn [snd userCache set_userCache set_users]. intros Hx.
  destruct (set_lookup _ _ _ _ _ _ _ _ E Hx) as [H | [_ ->]]; [auto|].
  right. apply has_password_omit.
Qed.

(** authenticateUser writes only the public projection to the cache. *)
Lemma authenticateUser_caches_public (A : Argon2) (now : Z) (email password : string)
    (s : UState) (k : string) (x : Obj * Z) :
  NodeCache.data (userCache (authenticateUser A now email password s).2) !! k = Some x ->
  NodeCache.data (userCache s) !! k = Some x \/ has_field "password" x.1 = false.
Proof.
  unfold authenticateUser. cbv zeta.
  destruct (findOne (users s) _); [|auto].
  destruct (comparePassword _ _ _) as [[|]|m]; [|auto|auto].
  destruct (NodeCache.set _ _ _ _ _) as [c|m] eqn:E; [|auto].
  cbn [snd userCache set_userCache]. intros Hx.
  destruct (set_lookup _ _ _ _ _ _ _ _ E Hx) as [H | [_ ->]]; [auto|].
  right. apply has_password_omit.
Qed.

(** C3 (code_bug). findUserByEmail, on a cache miss for a stored user,
    caches [user.toObject()] of the document fetched with
    [.select('+password')]: the cached value under
    "user:alice@example.com" has a password field (the stored hash),
    although the comments in findUserByEmail say it is cached without
    the password and registerUser and authenticateUser strip it. *)
Lemma C3_findUserByEmail_caches_password :
  match NodeCache.data (userCache (findUserByEmail 0 "alice@example.com" users_alice).2)
          !! "user:alice@example.com" with
  | Some (v, _) => has_field "password" v = true /\
                   In ("password", VStr (u_password alice)) v
  | None => False
  end.
Proof. vm_compute. split; [reflexivity | right; right; right; right; left; reflexivity]. Qed.

(* ------------------------------------------------------------------ *)
(** ** C5: status codes chosen by the controllers *)

(** C5 (counterexample). A login for a stored record whose password field
    is not a hash string makes comparePassword throw an internal error;
    the login handler still answers 401, with the internal error's
    message. *)
Lemma C5_internal_error_gets_401 :
  (login toy_argon2 0 (login_body "bob@example.com" "whatever") users_bob).1 =
  {| res_status := 401; res_success := false;
     res_message :=
       "Authentication failed: Password comparison error: TypeError: pchstr must contain a $ as first char" |}.
Proof. vm_compute. reflexivity. Qed.

(** C5 (amended). The register handler answers 400 when a field is
    missing or empty, 201 on success, and otherwise maps the error message:
    409 if it contains 'already exists', else 400 if it contains
    'Validation failed', else 500. The login handler answers 400 when
    email or password is missing or empty, 200 on success, and 401 for
    every error authenticateUser throws, credential failure or internal
    error alike. *)
Theorem C5_controller_status_map (A : Argon2) (libs : Libs) (node_env : string) (now : Z)
    (uid : string)
    (rb : RegisterBody) (lb : LoginBody) (s : UState) :
  res_status (register A libs node_env now uid rb s).1 =
    (if truthy (rb_firstName rb) && truthy (rb_lastName rb) &&
        truthy (rb_email rb) && truthy (rb_password rb)
     then match (registerUser A libs node_env now uid
                   {| ri_firstName := field (rb_firstName rb);
                      ri_lastName := field (rb_lastName rb);
                      ri_email := field (rb_email rb);
                      ri_password := field (rb_password rb) |} s).1 with
          | Ok _ => 201
          | Err m => if Str.includes m "already exists" then 409
                     else if Str.includes m "Validation failed" then 400 else 500
          end
     else 400) /\
  res_status (login A now lb s).1 =
    (if truthy (lb_email lb) && truthy (lb_password lb)
     then match (authenticateUser A now (field (lb_email lb)) (field (lb_password lb)) s).1 with
          | Ok _ => 200
          | Err _ => 401
          end
     else 400).
Proof.
  split.
  - unfold register.
    destruct (truthy (rb_firstName rb)), (truthy (rb_lastName rb)),
             (truthy (rb_email rb)), (truthy (rb_password rb)); try reflexivity.
    cbn [negb orb andb]. destruct (registerUser _ _ _ _ _ _ _) as [[o|m] s']; reflexivity.
  - unfold login.
    destruct (truthy (lb_email lb)), (truthy (lb_password lb)); try reflexivity.
    cbn [negb orb andb]. destruct (authenticateUser _ _ _ _ _) as [[o|m] s']; reflexivity.
Qed.

(* ------------------------------------------------------------------ *)
(** ** C10: the NODE_ENV validation gate *)




(* ------------------------------------------------------------------ *)
(** ** C8: no entry is read after its TTL *)

Section Expiry.

Context {V : Type}.
Variable key : string.
Variable entry : V * Z.

(** Every entry stored under [key] is [entry]. *)
Definition holds_only (c : NodeCache.t V) : Prop :=
  forall x, NodeCache.data c !! key = Some x -> x = entry.

Lemma holds_only_del (c : NodeCache.t V) (k : string) :
  holds_only c -> holds_only (NodeCache.del c k).
Proof.
  unfold holds_only, NodeCache.del. cbn [NodeCache.data]. intros H x.
  rewrite lookup_delete. case_decide; [discriminate|apply H].
Qed.

Lemma holds_only_run_op (c : NodeCache.t V) (o : NodeCache.op V) :
  NodeCache.writes key o = false -> holds_only c -> holds_only (NodeCache.run_op c o).
Proof.
  intros Hw H. destruct o as [k now|k v ttl now|k| |now]; cbn [NodeCache.run_op].
  - unfold NodeCache.get. destruct (NodeCache.data c !! k) as [[v t]|]; [|exact H].
    destruct (NodeCache.expired t now); [apply holds_only_del|]; exact H.
  - destruct (NodeCache.set c now k v ttl) as [c'|m] eqn:E; [|exact H].
    intros x Hx. destruct (set_lookup _ _ _ _ _ _ _ _ E Hx) as [Hc | [-> _]].
    + exact (H x Hc).
    + cbn [NodeCache.writes] in Hw. rewrite String.eqb_refl in Hw. discriminate.
  - apply holds_only_del. exact H.
  - intros x. unfold NodeCache.flushAll. cbn [NodeCache.data].
    rewrite lookup_empty. discriminate.
  - intros x Hx. unfold NodeCache.sweep in Hx. cbn [NodeCache.data] in Hx.
    apply map_lookup_filter_Some in Hx as [Hx _]. exact (H x Hx).
Qed.

Lemma holds_only_run_ops (c : NodeCache.t V) (ops : list (NodeCache.op V)) :
  forallb (fun o => negb (NodeCache.writes key o)) ops = true ->
  holds_only c -> holds_only (NodeCache.run_ops c ops).
Proof.
  unfold NodeCache.run_ops. revert c.
  induction ops as [|o ops IH]; intros c Hw H; cbn [fold_left]; [exact H|].
  cbn [forallb] in Hw. apply andb_prop in Hw as [Ho Hw].
  apply IH; [exact Hw|]. apply holds_only_run_op; [|exact H].
  destruct (NodeCache.writes key o); [discriminate|reflexivity].
Qed.

End Expiry.

Definition ttl_of {V} (c : NodeCache.t V) (ttl : option Z) : Z :=
  match ttl with Some x => x | None => NodeCache.stdTTL c end.




(* ------------------------------------------------------------------ *)
(** ** C4: invalidateCache *)

(** C4 (counterexample). invalidateCache() with no id removes the
    aggregate entry only: the entry of item 1 is still cached. *)
Lemma C4_no_id_keeps_item_entries :
  NodeCache.data (itemCache (invalidateCache None items_two)) !! "item_1" =
    Some (IVItem widget, 600000) /\
  NodeCache.data (itemCache (invalidateCache None items_two)) !! "all_items" = None.
Proof. vm_compute. split; reflexivity. Qed.

(** C4 (amended). invalidateCache always removes the 'all_items' entry;
    with a (non-empty) id it also removes 'item_<id>'; no other entry
    changes, so with no id every per-item entry stays cached. *)
Theorem C4_invalidateCache_spec (id : option string) (s : IState) (k : string) :
  NodeCache.data (itemCache (invalidateCache id s)) !! "all_items" = None /\
  NodeCache.data (itemCache (invalidateCache id s)) !! k =
    (if bool_decide (k = "all_items") || (truthy id && bool_decide (k = "item_" +:+ field id))
     then None else NodeCache.data (itemCache s) !! k) /\
  items (invalidateCache id s) = items s.
Proof.
  unfold invalidateCache, NodeCache.del. cbn [itemCache items set_itemCache NodeCache.data].
  split; [|split; [|reflexivity]].
  - destruct (truthy id); cbn [NodeCache.data]; apply lookup_delete_eq.
  - destruct (decide (k = "all_items")) as [->|Ha].
    + rewrite bool_decide_true by reflexivity. cbn [orb].
      destruct (truthy id); cbn [NodeCache.data]; apply lookup_delete_eq.
    + rewrite (bool_decide_false _ Ha). cbn [orb].
      rewrite lookup_delete_ne by congruence.
      destruct (truthy id); cbn [andb NodeCache.data]; [|reflexivity].
      destruct (decide (k = "item_" +:+ field id)) as [->|Hi].
      * rewrite bool_decide_true by reflexivity. apply lookup_delete_eq.
      * rewrite (bool_decide_false _ Hi). apply lookup_delete_ne. congruence.
Qed.

(* ------------------------------------------------------------------ *)
(** ** C6: item validation *)

(** The message of a creation stopped by class-validator's unknown-value
    error. *)
Definition item_unknownValue : string := "Validation failed: " +:+ unknownValue.

(** Mongoose's message for an item saved with an empty name. *)
Definition item_name_required : string :=
  "ItemModel validation failed: name: Path `name` is required.".

Lemma createItem_unknownValue (libs : Libs) (conn : DbConn) (now : Z) (oid : string)
    (inp : CreateItemInput) (s : IState) :
  forbidUnknownValues libs = true ->
  createItem libs conn now oid inp s = (Err item_unknownValue, s).
Proof. intros Hf. unfold createItem, validate. rewrite Hf. reflexivity. Qed.

(** With [forbidUnknownValues] off, createItem is the save followed by
    the cache write. *)
Lemma createItem_passes (libs : Libs) (conn : DbConn) (now : Z) (oid : string)
    (inp : CreateItemInput) (s : IState) :
  forbidUnknownValues libs = false ->
  createItem libs conn now oid inp s =
    match save_item conn (new_item now oid inp) (items s) with
    | Err m => (Err m, s)
    | Ok l =>
        match NodeCache.set (itemCache s) now ("item_" +:+ oid) (IVItem (new_item now oid inp)) None with
        | Err m => (Err m, {| items := l; itemCache := itemCache s |})
        | Ok c => (Ok (new_item now oid inp), {| items := l; itemCache := c |})
        end
    end.
Proof. intros Hf. unfold createItem, validate. rewrite Hf. reflexivity. Qed.

Lemma save_item_up (i : Item) (l : list Item) :
  i_name i <> "" -> save_item DbUp i l = Ok (l ++ [i]).
Proof. intros Hn. unfold save_item, item_required. rewrite eqb_false_of_neq by exact Hn. reflexivity. Qed.

(** A successful creation stores the item it returns. *)
Lemma createItem_ok_stored (libs : Libs) (conn : DbConn) (now : Z) (oid : string)
    (inp : CreateItemInput) (s s1 : IState) (it : Item) :
  createItem libs conn now oid inp s = (Ok it, s1) ->
  it = new_item now oid inp /\ items s1 = items s ++ [it] /\
  NodeCache.set (itemCache s) now ("item_" +:+ oid) (IVItem it) None = Ok (itemCache s1).
Proof.
  destruct (forbidUnknownValues libs) eqn:Hf.
  - rewrite createItem_unknownValue by exact Hf. discriminate.
  - rewrite createItem_passes by exact Hf. unfold save_item.
    destruct (item_required _); [|discriminate].
    destruct conn as [|e]; [|discriminate].
    destruct (NodeCache.set _ _ _ _ _) eqn:S; [|discriminate].
    intros H. injection H as <- <-. cbn [items itemCache]. auto.
Qed.




(* ------------------------------------------------------------------ *)
(** ** C9: getAllItems *)

Lemma full_del {V} (c : NodeCache.t V) (k : string) :
  NodeCache.full c = false -> NodeCache.full (NodeCache.del c k) = false.
Proof.
  unfold NodeCache.full, NodeCache.keys, NodeCache.del. cbn [NodeCache.maxKeys NodeCache.data].
  rewrite map_size_delete.
  destruct (NodeCache.data c !! k); [|intros H; exact H].
  intros H. apply andb_false_iff in H as [H|H]; apply andb_false_iff; [left; exact H|right].
  apply Z.leb_gt in H. apply Z.leb_gt. simpl. lia.
Qed.

Lemma full_get {V} (c : NodeCache.t V) (now : Z) (k : string) :
  NodeCache.full c = false -> NodeCache.full (NodeCache.get c now k).2 = false.
Proof.
  intros H. unfold NodeCache.get. destruct (NodeCache.data c !! k) as [[v t]|]; [|exact H].
  destruct (NodeCache.expired t now); [apply full_del|]; exact H.
Qed.

(** A read of [all_items] that misses, with the database up and the cache
    below its bound, stores and returns every stored item. *)
Lemma getAllItems_miss (now : Z) (s : IState) :
  (NodeCache.get (itemCache s) now "all_items").1 = None ->
  NodeCache.full (itemCache s) = false ->
  (getAllItems DbUp now s).1 = Ok (IVItems (items s)) /\
  NodeCache.data (itemCache (getAllItems DbUp now s).2) !! "all_items" =
    Some (IVItems (items s), now + 300000) /\
  items (getAllItems DbUp now s).2 = items s.
Proof.
  intros Hmiss Hfull. unfold getAllItems.
  destruct (NodeCache.get (itemCache s) now "all_items") as [o c] eqn:E.
  cbn [fst] in Hmiss. subst o.
  pose proof (full_get (itemCache s) now "all_items" Hfull) as Hc. rewrite E in Hc.
  cbn [snd] in Hc. unfold Item_find, NodeCache.set. cbn [itemCache items set_itemCache].
  rewrite Hc. cbn. split; [reflexivity|]. split; [|reflexivity].
  apply lookup_insert_eq.
Qed.

(** C9 (code_bug). node-cache's maxKeys makes a write to a full cache
    throw ECACHEFULL instead of evicting. With the item cache at its key
    bound and no 'all_items' entry, getAllItems does not fetch and
    repopulate: with the database up it fails with 'Failed to retrieve
    items', changing nothing, and the GET /items handler answers 500. *)
Theorem C9_getAll_fails_when_cache_full (now : Z) (s : IState) :
  NodeCache.data (itemCache s) !! "all_items" = None ->
  NodeCache.full (itemCache s) = true ->
  getAllItems DbUp now s = (Err "Failed to retrieve items", s) /\
  ItemController.getAllItems DbUp now s =
    ({| res_status := 500; res_success := false; res_message := "Failed to retrieve items" |}, s).
Proof.
  intros Habs Hfull.
  assert (H : getAllItems DbUp now s = (Err "Failed to retrieve items", s)).
  { unfold getAllItems, NodeCache.get at 1. rewrite Habs. cbv beta iota.
    unfold Item_find, NodeCache.set. cbn [itemCache items set_itemCache]. rewrite Hfull.
    destruct s; reflexivity. }
  split; [exact H|]. unfold ItemController.getAllItems. rewrite H. reflexivity.
Qed.

(** Witness for C9: an item cache holding ten thousand item entries and
    no aggregate entry. *)
Lemma C9_getAll_fails_when_cache_full_witness :
  getAllItems DbUp 0 items_full = (Err "Failed to retrieve items", items_full) /\
  ItemController.getAllItems DbUp 0 items_full =
    ({| res_status := 500; res_success := false; res_message := "Failed to retrieve items" |},
     items_full).
Proof. apply C9_getAll_fails_when_cache_full; vm_compute; reflexivity. Defined.

(* ================================================================== *)
(** * Further properties of the services, controllers and start-up code *)

(** ** Helper lemmas *)

Lemma set_not_full {V} (c : NodeCache.t V) (now : Z) (key : string) (v : V) (ttl : option Z) :
  NodeCache.full c = false ->
  NodeCache.set c now key v ttl =
    Ok (NodeCache.mk (NodeCache.stdTTL c) (NodeCache.maxKeys c)
          (<[key := (v, if ttl_of c ttl =? 0 then 0 else now + ttl_of c ttl * 1000)]>
             (NodeCache.data c))).
Proof. intros H. unfold NodeCache.set, ttl_of. rewrite H. reflexivity. Qed.

Lemma expired_within (now now2 ttl : Z) :
  0 <= ttl -> now2 <= now + ttl * 1000 ->
  NodeCache.expired (if ttl =? 0 then 0 else now + ttl * 1000) now2 = false.
Proof.
  intros H1 H2. unfold NodeCache.expired.
  destruct (ttl =? 0) eqn:E; [reflexivity|].
  apply andb_false_iff. right. apply Z.ltb_ge. lia.
Qed.

Lemma get_hit {V} (c c' : NodeCache.t V) (now : Z) (k : string) (w : V) :
  NodeCache.get c now k = (Some w, c') -> c' = c.
Proof.
  unfold NodeCache.get. destruct (NodeCache.data c !! k) as [[v t]|]; [|discriminate].
  destruct (NodeCache.expired t now); [discriminate|]. congruence.
Qed.

Lemma get_miss_absent {V} (c : NodeCache.t V) (now : Z) (k : string) :
  (NodeCache.get c now k).1 = None -> NodeCache.data (NodeCache.get c now k).2 !! k = None.
Proof.
  unfold NodeCache.get. destruct (NodeCache.data c !! k) as [[v t]|] eqn:E; [|intros _; exact E].
  destruct (NodeCache.expired t now); [|discriminate].
  intros _. cbn [snd NodeCache.del NodeCache.data]. apply lookup_delete_eq.
Qed.

Lemma get_stdTTL {V} (c : NodeCache.t V) (now : Z) (k : string) :
  NodeCache.stdTTL (NodeCache.get c now k).2 = NodeCache.stdTTL c.
Proof.
  unfold NodeCache.get. destruct (NodeCache.data c !! k) as [[v t]|]; [|reflexivity].
  destruct (NodeCache.expired t now); reflexivity.
Qed.

(** A successful registration, with the cache state it leaves. *)
Lemma registerUser_created_state (A : Argon2) (libs : Libs) (node_env : string) (now : Z)
    (uid : string) (inp : RegisterUserInput) (s : UState) :
  findOne (users s) (Str.toLowerCase (ri_email inp)) = None ->
  ri_firstName inp <> "" -> ri_lastName inp <> "" -> ri_email inp <> "" ->
  ri_password inp <> "" ->
  (node_env = "production" \/ forbidUnknownValues libs = false) ->
  NodeCache.full (userCache s) = false ->
  registerUser A libs node_env now uid inp s =
    (Ok (user_public (created_user A now uid inp)),
     {| users := users s ++ [created_user A now uid inp];
        userCache := NodeCache.mk (NodeCache.stdTTL (userCache s)) (NodeCache.maxKeys (userCache s))
          (<["user:" +:+ Str.toLowerCase (ri_email inp) :=
              (user_public (created_user A now uid inp),
               if NodeCache.stdTTL (userCache s) =? 0 then 0
               else now + NodeCache.stdTTL (userCache s) * 1000)]>
             (NodeCache.data (userCache s))) |}).
Proof.
  intros Hfind H1 H2 H3 H4 Henv Hfull.
  unfold registerUser. cbv zeta. rewrite Hfind.
  rewrite (validate_gate_ok libs node_env _ Henv). unfold save_user.
  rewrite mongoose_required_ok; cbn [u_firstName u_lastName u_email u_password];
    try assumption; [| apply toLowerCase_nonempty; assumption].
  unfold NodeCache.set. rewrite Hfull. reflexivity.
Qed.

Lemma split_nonempty (c : ascii) (s : string) : exists p r, Str.split c s = p :: r.
Proof.
  destruct s as [|d s]; cbn [Str.split]; [eexists _, _; reflexivity|].
  destruct (Str.split c s) as [|p r]; [eexists _, _; reflexivity|].
  destruct (Ascii.eqb c d); eexists _, _; reflexivity.
Qed.

Lemma split_no_sep (c : ascii) (s : string) :
  Str.all_chars (fun d => negb (Ascii.eqb c d)) s = true -> Str.split c s = [s].
Proof.
  induction s as [|d s IH]; intros H; [reflexivity|].
  cbn [Str.all_chars] in H. apply andb_prop in H as [Hd Hs].
  cbn [Str.split]. rewrite (IH Hs). apply negb_true_iff in Hd. rewrite Hd. reflexivity.
Qed.

Lemma split_app_sep (c : ascii) (a b : string) :
  Str.all_chars (fun d => negb (Ascii.eqb c d)) a = true ->
  Str.split c (a +:+ String c b) = a :: Str.split c b.
Proof.
  induction a as [|d a IH]; intros H.
  - change ("" +:+ String c b) with (String c b). cbn [Str.split].
    destruct (split_nonempty c b) as [p [r E]].
    rewrite E. cbv beta iota. rewrite Ascii.eqb_refl. reflexivity.
  - cbn [Str.all_chars] in H. apply andb_prop in H as [Hd Ha].
    change (String d a +:+ String c b) with (String d (a +:+ String c b)).
    cbn [Str.split]. rewrite (IH Ha). cbv beta iota.
    apply negb_true_iff in Hd. rewrite Hd. reflexivity.
Qed.

Lemma parseInt_alpha (c : ascii) (r : string) :
  Validator.is_alpha c = true -> parseInt (String c r) = None.
Proof.
  intros H. destruct r as [|x r];
  destruct c as [[] [] [] [] [] [] [] []]; vm_compute in H;
    first [discriminate H | vm_compute; reflexivity].
Qed.

Lemma db_run_app (st : DbState) (l1 l2 : list DbEvent) :
  db_run st (l1 ++ l2) =
    match db_run st l1 with Some st' => db_run st' l2 | None => None end.
Proof.
  revert st. induction l1 as [|e l1 IH]; intros st; [reflexivity|].
  cbn [app db_run]. destruct (db_step st e); [apply IH | reflexivity].
Qed.

(* ------------------------------------------------------------------ *)
(** ** The user cache across calls *)

(** After [clearCache(email)] with a truthy email, a lookup of any email
    with the same lowercase form, and after [clearCache()] (or an empty
    email) a lookup of any email, misses the cache and reads the store: it
    returns the whole stored document, password hash included, or fails
    with ECACHEFULL when the cache is at its key bound. *)
Lemma clearCache_then_findUserByEmail (email : option string) (now : Z) (e : string)
    (s : UState) :
  (truthy email = false \/ Str.toLowerCase e = Str.toLowerCase (field email)) ->
  (findUserByEmail now e (clearCache email s)).1 =
    match findOne (users s) (Str.toLowerCase e) with
    | None => Ok None
    | Some u => if NodeCache.full (userCache (clearCache email s))
                then Err NodeCache.ECACHEFULL else Ok (Some (user_toObject u))
    end.
Proof.
  intros Hk.
  assert (Hmiss : NodeCache.data (userCache (clearCache email s)) !!
                    ("user:" +:+ Str.toLowerCase e) = None).
  { unfold clearCache. destruct (truthy email) eqn:Et;
      cbn [userCache set_userCache NodeCache.data NodeCache.del NodeCache.flushAll].
    - destruct Hk as [Hk|Hk]; [congruence|]. rewrite Hk. apply lookup_delete_eq.
    - apply lookup_empty. }
  assert (Hu : users (clearCache email s) = users s)
    by (unfold clearCache; destruct (truthy email); reflexivity).
  unfold findUserByEmail. cbv zeta. unfold NodeCache.get at 1. rewrite Hmiss.
  cbv beta iota. cbn [users userCache set_userCache]. rewrite Hu.
  destruct (findOne (users s) (Str.toLowerCase e)) as [u|]; [|reflexivity].
  unfold NodeCache.set. destruct (NodeCache.full (userCache (clearCache email s))); reflexivity.
Qed.

(** Witness: alice is looked up (and cached), the entry is cleared under
    another spelling of her email, and a third spelling is looked up. *)
Lemma clearCache_then_findUserByEmail_witness :
  (findUserByEmail 5 "Alice@Example.com"
     (clearCache (Some "ALICE@example.com") (findUserByEmail 0 "alice@example.com" users_alice).2)).1 =
    match findOne (users (findUserByEmail 0 "alice@example.com" users_alice).2)
            (Str.toLowerCase "Alice@Example.com") with
    | None => Ok None
    | Some u => if NodeCache.full (userCache (clearCache (Some "ALICE@example.com")
                                   (findUserByEmail 0 "alice@example.com" users_alice).2))
                then Err NodeCache.ECACHEFULL else Ok (Some (user_toObject u))
    end.
Proof.
  apply clearCache_then_findUserByEmail. right. vm_compute. reflexivity.
Defined.

(** Right after a successful registration (in production, or with
    [forbidUnknownValues] off), and for as long as the entry lives (stdTTL
    seconds), findUserByEmail with any spelling of the email answers from
    the cache: the public projection, without the password, although a
    read from the store would include it. *)
Lemma registerUser_then_findUserByEmail (A : Argon2) (libs : Libs) (node_env : string)
    (now now2 : Z) (uid e : string) (inp : RegisterUserInput) (s : UState) :
  findOne (users s) (Str.toLowerCase (ri_email inp)) = None ->
  ri_firstName inp <> "" -> ri_lastName inp <> "" -> ri_email inp <> "" ->
  ri_password inp <> "" ->
  (node_env = "production" \/ forbidUnknownValues libs = false) ->
  NodeCache.full (userCache s) = false ->
  0 <= NodeCache.stdTTL (userCache s) ->
  now2 <= now + NodeCache.stdTTL (userCache s) * 1000 ->
  Str.toLowerCase e = Str.toLowerCase (ri_email inp) ->
  (findUserByEmail now2 e (registerUser A libs node_env now uid inp s).2).1 =
    Ok (Some (user_public (created_user A now uid inp))).
Proof.
  intros Hfind H1 H2 H3 H4 Henv Hfull Httl Hnow Hlow.
  rewrite (registerUser_created_state A libs node_env now uid inp s Hfind H1 H2 H3 H4 Henv Hfull).
  unfold findUserByEmail. cbv zeta. unfold NodeCache.get.
  cbn [userCache NodeCache.data snd]. rewrite Hlow, lookup_insert_eq.
  rewrite expired_within by assumption. reflexivity.
Qed.

(** Witness: "Test@Example.com" registered at time 0 in the test
    environment with class-validator 0.13, looked up as
    "TEST@example.com" 100 s later. *)
Lemma registerUser_then_findUserByEmail_witness :
  (findUserByEmail 100000 "TEST@example.com"
     (registerUser toy_argon2 libs_cv013 "test" 0 "u1"
        (reg_input "Test@Example.com" "Password123!") users_empty).2).1 =
    Ok (Some (user_public (created_user toy_argon2 0 "u1"
                             (reg_input "Test@Example.com" "Password123!")))).
Proof.
  apply registerUser_then_findUserByEmail;
    try reflexivity; try discriminate; try (vm_compute; discriminate).
  right. reflexivity.
Defined.

(** Round trip: for an argon2 binding that behaves as documented, after a
    successful registration (in production, or with [forbidUnknownValues]
    off) a login with any spelling of the email and the registered
    password succeeds and returns the public projection, provided the user
    cache is below its key bound. *)
Lemma registerUser_then_authenticateUser (A : Argon2) (Hc : argon2_contract A) (libs : Libs)
    (node_env : string) (now now2 : Z) (uid e : string) (inp : RegisterUserInput) (s : UState) :
  findOne (users s) (Str.toLowerCase (ri_email inp)) = None ->
  ri_firstName inp <> "" -> ri_lastName inp <> "" -> ri_email inp <> "" ->
  ri_password inp <> "" ->
  (node_env = "production" \/ forbidUnknownValues libs = false) ->
  NodeCache.full (userCache s) = false ->
  Str.toLowerCase e = Str.toLowerCase (ri_email inp) ->
  NodeCache.full (userCache (registerUser A libs node_env now uid inp s).2) = false ->
  (authenticateUser A now2 e (ri_password inp) (registerUser A libs node_env now uid inp s).2).1 =
    Ok (user_public (created_user A now uid inp)).
Proof.
  intros Hfind H1 H2 H3 H4 Henv Hfull Hlow Hfull'.
  destruct (registerUser_created A libs node_env now uid inp s Hfind H1 H2 H3 H4 Henv Hfull)
    as [c Hreg].
  rewrite Hreg in *. cbn [snd userCache] in Hfull'.
  unfold authenticateUser. cbv zeta. cbn [snd users].
  rewrite Hlow, (findOne_created A now uid inp _ Hfind).
  cbn [u_password created_user]. rewrite (comparePassword_hash A Hc), String.eqb_refl.
  unfold NodeCache.set. cbn [userCache]. rewrite Hfull'. reflexivity.
Qed.

(** Witness: registration of "Test@Example.com" in production with
    class-validator 0.14, then a login as "test@EXAMPLE.com" with the same
    password, with the toy binding. *)
Lemma registerUser_then_authenticateUser_witness :
  (authenticateUser toy_argon2 60000 "test@EXAMPLE.com" "Password123!"
     (registerUser toy_argon2 libs_cv014 "production" 0 "u1"
        (reg_input "Test@Example.com" "Password123!") users_empty).2).1 =
    Ok (user_public (created_user toy_argon2 0 "u1"
                       (reg_input "Test@Example.com" "Password123!"))).
Proof.
  apply (registerUser_then_authenticateUser toy_argon2 toy_argon2_contract libs_cv014
           "production" 0 60000 "u1" "test@EXAMPLE.com"
           (reg_input "Test@Example.com" "Password123!") users_empty);
    try reflexivity; try discriminate; try (vm_compute; reflexivity).
  left. reflexivity.
Defined.

(* ------------------------------------------------------------------ *)
(** ** ItemService.getItemById *)

(** A read of [item_<id>] that misses, for an id the query finds, on a
    cache below its bound with a positive stdTTL, returns the item and
    caches it with expiry now + stdTTL s; the store is unchanged. *)
Lemma getItemById_miss_caches (libs : Libs) (conn : DbConn) (now : Z) (id : string)
    (s : IState) (it : Item) :
  (NodeCache.get (itemCache s) now ("item_" +:+ id)).1 = None ->
  Item_findById libs conn (items s) id = Ok (Some it) ->
  NodeCache.full (itemCache s) = false ->
  0 < NodeCache.stdTTL (itemCache s) ->
  (getItemById libs conn now id s).1 = Ok (Some (IVItem it)) /\
  NodeCache.data (itemCache (getItemById libs conn now id s).2) !! ("item_" +:+ id) =
    Some (IVItem it, now + NodeCache.stdTTL (itemCache s) * 1000) /\
  items (getItemById libs conn now id s).2 = items s.
Proof.
  intros Hmiss Hfind Hfull Httl. unfold getItemById. cbv zeta.
  pose proof (full_get (itemCache s) now ("item_" +:+ id) Hfull) as Hc.
  pose proof (get_stdTTL (itemCache s) now ("item_" +:+ id)) as Hstd.
  destruct (NodeCache.get (itemCache s) now ("item_" +:+ id)) as [o c] eqn:E.
  cbn [fst snd] in Hmiss, Hc, Hstd. subst o.
  cbn [items itemCache set_itemCache]. rewrite Hfind.
  rewrite (set_not_full c now _ _ None Hc). cbv beta iota.
  cbn [fst snd items itemCache set_itemCache NodeCache.data].
  split; [reflexivity|]. split; [|reflexivity].
  rewrite lookup_insert_eq. unfold ttl_of. rewrite Hstd.
  replace (NodeCache.stdTTL (itemCache s) =? 0) with false by lia. reflexivity.
Qed.

(** Witness: the gadget stored but not cached, read by its ObjectId at
    time 7. *)
Lemma getItemById_miss_caches_witness :
  (getItemById libs_cv014 DbUp 7 gadget_id
     {| items := [gadget]; itemCache := new_itemCache |}).1 = Ok (Some (IVItem gadget)) /\
  NodeCache.data (itemCache (getItemById libs_cv014 DbUp 7 gadget_id
                   {| items := [gadget]; itemCache := new_itemCache |}).2)
    !! ("item_" +:+ gadget_id) =
    Some (IVItem gadget, 7 + NodeCache.stdTTL new_itemCache * 1000) /\
  items (getItemById libs_cv014 DbUp 7 gadget_id
           {| items := [gadget]; itemCache := new_itemCache |}).2 = [gadget].
Proof.
  apply (getItemById_miss_caches libs_cv014 DbUp 7 gadget_id
           {| items := [gadget]; itemCache := new_itemCache |});
    vm_compute; reflexivity.
Defined.

(** When the item cache is at its key bound and holds no entry for the
    id, reading an item the query finds fails with 'Failed to retrieve
    item' (the cache write throws ECACHEFULL) and changes nothing. *)
Lemma getItemById_full_fails (libs : Libs) (conn : DbConn) (now : Z) (id : string)
    (s : IState) (it : Item) :
  NodeCache.data (itemCache s) !! ("item_" +:+ id) = None ->
  Item_findById libs conn (items s) id = Ok (Some it) ->
  NodeCache.full (itemCache s) = true ->
  getItemById libs conn now id s = (Err "Failed to retrieve item", s).
Proof.
  intros Habs Hfind Hfull. unfold getItemById. cbv zeta.
  unfold NodeCache.get at 1. rewrite Habs. cbv beta iota.
  cbn [items itemCache set_itemCache]. rewrite Hfind.
  unfold NodeCache.set. rewrite Hfull. destruct s; reflexivity.
Qed.

(** Witness: the gadget stored, the cache full of ten thousand other item
    entries. *)
Lemma getItemById_full_fails_witness :
  getItemById libs_cv014 DbUp 0 gadget_id {| items := [gadget]; itemCache := itemCache items_full |} =
    (Err "Failed to retrieve item", {| items := [gadget]; itemCache := itemCache items_full |}).
Proof.
  apply (getItemById_full_fails libs_cv014 DbUp 0 gadget_id _ gadget); vm_compute; reflexivity.
Defined.

(** A read that returns an item, repeated at the same time, returns the
    same value from the cache and leaves the state as the first read left
    it (for a cache whose stdTTL is not negative). *)
Lemma getItemById_repeat (libs : Libs) (conn : DbConn) (now : Z) (id : string) (s : IState)
    (v : ItemVal) :
  0 <= NodeCache.stdTTL (itemCache s) ->
  (getItemById libs conn now id s).1 = Ok (Some v) ->
  getItemById libs conn now id (getItemById libs conn now id s).2 =
    (Ok (Some v), (getItemById libs conn now id s).2).
Proof.
  intros Httl H. unfold getItemById in *. cbv zeta in *.
  pose proof (get_stdTTL (itemCache s) now ("item_" +:+ id)) as Hstd.
  destruct (NodeCache.get (itemCache s) now ("item_" +:+ id)) as [[w|] c] eqn:E.
  - cbn [fst] in H. injection H as <-.
    pose proof (get_hit _ _ _ _ _ E) as ->.
    cbn [fst snd itemCache set_itemCache]. rewrite E. reflexivity.
  - cbn [snd] in Hstd.
    cbn [items itemCache set_itemCache] in H |- *.
    destruct (Item_findById libs conn (items s) id) as [[i|]|m]; [|discriminate H|discriminate H].
    destruct (NodeCache.set c now ("item_" +:+ id) (IVItem i) None) as [c'|m] eqn:S;
      [|discriminate H].
    cbn [fst] in H. injection H as <-.
    unfold NodeCache.set in S. destruct (NodeCache.full c); [discriminate S|].
    injection S as <-. cbn [fst snd items itemCache set_itemCache].
    unfold NodeCache.get at 1. cbn [NodeCache.data]. rewrite lookup_insert_eq.
    rewrite Hstd, expired_within by lia. reflexivity.
Qed.

(** Witness: the gadget read twice at time 7 from an empty cache. *)
Lemma getItemById_repeat_witness :
  getItemById libs_cv014 DbUp 7 gadget_id
    (getItemById libs_cv014 DbUp 7 gadget_id
       {| items := [gadget]; itemCache := new_itemCache |}).2 =
    (Ok (Some (IVItem gadget)),
     (getItemById libs_cv014 DbUp 7 gadget_id
        {| items := [gadget]; itemCache := new_itemCache |}).2).
Proof.
  apply getItemById_repeat; [vm_compute; discriminate | vm_compute; reflexivity].
Defined.

(** An item created at [now] is served from the cache by getItemById
    until its entry expires (stdTTL seconds later), the store unread and
    the state unchanged. *)
Lemma createItem_then_getItemById (libs : Libs) (conn : DbConn) (now now2 : Z) (oid : string)
    (inp : CreateItemInput) (s s1 : IState) (it : Item) :
  createItem libs conn now oid inp s = (Ok it, s1) ->
  0 <= NodeCache.stdTTL (itemCache s) ->
  now2 <= now + NodeCache.stdTTL (itemCache s) * 1000 ->
  getItemById libs conn now2 oid s1 = (Ok (Some (IVItem it)), s1).
Proof.
  intros Hc Httl Hnow.
  destruct (createItem_ok_stored libs conn now oid inp s s1 it Hc) as [_ [_ S]].
  unfold NodeCache.set in S. destruct (NodeCache.full (itemCache s)); [discriminate S|].
  injection S as S. destruct s1 as [l1 c1]. cbn [itemCache] in S. subst c1.
  unfold getItemById. cbv zeta. unfold NodeCache.get at 1.
  cbn [itemCache set_itemCache NodeCache.data]. rewrite lookup_insert_eq.
  rewrite expired_within by assumption. reflexivity.
Qed.

(** Witness: an item created at time 0 with class-validator 0.13, read by
    its ObjectId 10 minutes later. *)
Lemma createItem_then_getItemById_witness :
  getItemById libs_cv013 DbUp 600000 gadget_id
    (createItem libs_cv013 DbUp 0 gadget_id (item_input "Widget" (Qmake 0 1)) items_empty).2 =
    (Ok (Some (IVItem (new_item 0 gadget_id (item_input "Widget" (Qmake 0 1))))),
     (createItem libs_cv013 DbUp 0 gadget_id (item_input "Widget" (Qmake 0 1)) items_empty).2).
Proof.
  apply (createItem_then_getItemById libs_cv013 DbUp 0 600000 gadget_id
           (item_input "Widget" (Qmake 0 1)) items_empty);
    [vm_compute; reflexivity | vm_compute; discriminate | vm_compute; discriminate].
Defined.

(** createItem does not touch the 'all_items' entry: while that entry
    lives, getAllItems keeps returning the list cached before the
    create, which does not include the new item. *)
Lemma createItem_keeps_stale_all_items (libs : Libs) (conn : DbConn) (now now2 : Z)
    (oid : string) (inp : CreateItemInput) (s s1 : IState) (it : Item) (v : ItemVal) (t : Z) :
  NodeCache.data (itemCache s) !! "all_items" = Some (v, t) ->
  NodeCache.expired t now2 = false ->
  createItem libs conn now oid inp s = (Ok it, s1) ->
  In it (items s1) /\ getAllItems conn now2 s1 = (Ok v, s1).
Proof.
  intros Hv Ht Hc.
  destruct (createItem_ok_stored libs conn now oid inp s s1 it Hc) as [_ [Hl S]].
  split.
  - rewrite Hl. apply in_or_app. right. left. reflexivity.
  - unfold NodeCache.set in S. destruct (NodeCache.full (itemCache s)); [discriminate S|].
    injection S as S. destruct s1 as [l1 c1]. cbn [itemCache] in S. subst c1.
    unfold getAllItems, NodeCache.get. cbn [itemCache set_itemCache NodeCache.data].
    rewrite lookup_insert_ne by (intros Heq; discriminate Heq).
    rewrite Hv, Ht. reflexivity.
Qed.

(** Witness: the empty list of items is cached at time 0, an item is
    created at time 1 with class-validator 0.13, and getAllItems at time
    2 still returns the empty list. *)
Lemma createItem_keeps_stale_all_items_witness :
  In (new_item 1 gadget_id (item_input "Widget" (Qmake 0 1)))
     (items (createItem libs_cv013 DbUp 1 gadget_id (item_input "Widget" (Qmake 0 1))
               (getAllItems DbUp 0 items_empty).2).2) /\
  getAllItems DbUp 2
    (createItem libs_cv013 DbUp 1 gadget_id (item_input "Widget" (Qmake 0 1))
       (getAllItems DbUp 0 items_empty).2).2 =
    (Ok (IVItems []),
     (createItem libs_cv013 DbUp 1 gadget_id (item_input "Widget" (Qmake 0 1))
        (getAllItems DbUp 0 items_empty).2).2).
Proof.
  apply (createItem_keeps_stale_all_items libs_cv013 DbUp 1 2 gadget_id
           (item_input "Widget" (Qmake 0 1)) (getAllItems DbUp 0 items_empty).2 _ _
           (IVItems []) 300000);
    vm_compute; reflexivity.
Defined.

(* ------------------------------------------------------------------ *)
(** ** ItemService.getAllItems *)

(** With the database down, a read of [all_items] that misses fails with
    'Failed to retrieve items'; the only change to the state is the
    removal of an expired [all_items] entry by the read. *)
Lemma getAllItems_db_down (e : string) (now : Z) (s : IState) :
  (NodeCache.get (itemCache s) now "all_items").1 = None ->
  getAllItems (DbDown e) now s =
    (Err "Failed to retrieve items", set_itemCache s (NodeCache.get (itemCache s) now "all_items").2).
Proof.
  intros Hmiss. unfold getAllItems.
  destruct (NodeCache.get (itemCache s) now "all_items") as [o c] eqn:E.
  cbn [fst] in Hmiss. subst o. reflexivity.
Qed.

(** Witness: the database down, nothing cached. *)
Lemma getAllItems_db_down_witness :
  getAllItems (DbDown "connection closed") 0 items_empty =
    (Err "Failed to retrieve items",
     set_itemCache items_empty (NodeCache.get (itemCache items_empty) 0 "all_items").2).
Proof. apply getAllItems_db_down. vm_compute. reflexivity. Defined.

(** Read-through: with the database up and the cache below its bound, a
    read of [all_items] that misses returns every stored item and caches
    the list for 300 seconds; a second read within that window returns
    the same list from the cache and changes nothing. *)
Lemma getAllItems_read_through (now now2 : Z) (s : IState) :
  (NodeCache.get (itemCache s) now "all_items").1 = None ->
  NodeCache.full (itemCache s) = false ->
  now2 <= now + 300000 ->
  (getAllItems DbUp now s).1 = Ok (IVItems (items s)) /\
  getAllItems DbUp now2 (getAllItems DbUp now s).2 =
    (Ok (IVItems (items s)), (getAllItems DbUp now s).2).
Proof.
  intros Hmiss Hfull Hnow.
  destruct (getAllItems_miss now s Hmiss Hfull) as [H1 [H2 _]].
  split; [exact H1|].
  destruct (getAllItems DbUp now s) as [r s1]. cbn [snd] in H2 |- *.
  destruct s1 as [l1 c1]. cbn [itemCache] in H2.
  unfold getAllItems at 1, NodeCache.get at 1. cbn [itemCache]. rewrite H2.
  replace (NodeCache.expired (now + 300000) now2) with false.
  - reflexivity.
  - unfold NodeCache.expired. symmetry. apply andb_false_iff. right. apply Z.ltb_ge. lia.
Qed.

(** Witness: the widget stored, read at time 0 and again at time 1000. *)
Lemma getAllItems_read_through_witness :
  (getAllItems DbUp 0 {| items := [widget]; itemCache := new_itemCache |}).1 =
    Ok (IVItems [widget]) /\
  getAllItems DbUp 1000 (getAllItems DbUp 0 {| items := [widget]; itemCache := new_itemCache |}).2 =
    (Ok (IVItems [widget]),
     (getAllItems DbUp 0 {| items := [widget]; itemCache := new_itemCache |}).2).
Proof.
  apply (getAllItems_read_through 0 1000 {| items := [widget]; itemCache := new_itemCache |});
    [vm_compute; reflexivity | vm_compute; reflexivity | lia].
Defined.

(* ------------------------------------------------------------------ *)
(** ** ItemController *)

(** The create handler answers 201 or 400, never 500: every error the
    service throws, the cache's ECACHEFULL and the database's included,
    is reported as a client error. *)
Lemma ItemController_createItem_status (libs : Libs) (conn : DbConn) (now : Z) (oid : string)
    (body : ItemBody) (s : IState) :
  res_status (ItemController.createItem libs conn now oid body s).1 = 201 \/
  res_status (ItemController.createItem libs conn now oid body s).1 = 400.
Proof.
  unfold ItemController.createItem.
  destruct (truthy (ib_name body)), (ib_price body) as [price|]; try (right; reflexivity).
  destruct (createItem _ _ _ _ _ _) as [[i|m] s']; [left|right]; reflexivity.
Qed.

(** With [forbidUnknownValues] on, the create handler answers 400 to
    every body and changes nothing: 'Name and price are required fields'
    when the name is falsy or the price absent, the unknown-value
    message otherwise. *)
Lemma ItemController_createItem_unknownValue (libs : Libs) (conn : DbConn) (now : Z)
    (oid : string) (body : ItemBody) (s : IState) :
  forbidUnknownValues libs = true ->
  ItemController.createItem libs conn now oid body s =
    ({| res_status := 400; res_success := false;
        res_message := match truthy (ib_name body), ib_price body with
                       | true, Some _ => item_unknownValue
                       | _, _ => "Name and price are required fields"
                       end |}, s).
Proof.
  intros Hf. unfold ItemController.createItem.
  destruct (truthy (ib_name body)), (ib_price body) as [price|]; try reflexivity.
  rewrite createItem_unknownValue by exact Hf. reflexivity.
Qed.

(** Witness: a well-formed item posted with class-validator 0.14. *)
Lemma ItemController_createItem_unknownValue_witness :
  ItemController.createItem libs_cv014 DbUp 0 gadget_id
    {| ib_name := Some "Gadget"; ib_price := Some (Qmake 5 1); ib_description := None |}
    items_empty =
    ({| res_status := 400; res_success := false;
        res_message := item_unknownValue |}, items_empty).
Proof. apply ItemController_createItem_unknownValue. reflexivity. Defined.

(** With [forbidUnknownValues] off, the database up and the item cache
    below its bound, a body with a non-empty name and a price, of any
    sign, is answered 201 and the item is stored. *)
Lemma ItemController_createItem_created (libs : Libs) (now : Z) (oid name : string) (price : Q)
    (desc : option string) (s : IState) :
  forbidUnknownValues libs = false -> name <> "" -> NodeCache.full (itemCache s) = false ->
  (ItemController.createItem libs DbUp now oid
     {| ib_name := Some name; ib_price := Some price; ib_description := desc |} s).1 =
    {| res_status := 201; res_success := true; res_message := "Item created successfully" |} /\
  items (ItemController.createItem libs DbUp now oid
           {| ib_name := Some name; ib_price := Some price; ib_description := desc |} s).2 =
    items s ++ [new_item now oid {| ci_name := name; ci_price := price; ci_description := desc |}].
Proof.
  intros Hf Hn Hfull. unfold ItemController.createItem.
  cbn [ib_name ib_price ib_description truthy field].
  rewrite (eqb_false_of_neq _ _ Hn). cbn [negb].
  rewrite createItem_passes by exact Hf. rewrite save_item_up by exact Hn.
  unfold NodeCache.set. rewrite Hfull. split; reflexivity.
Qed.

(** Witness: an item of price -1 posted with class-validator 0.13. *)
Lemma ItemController_createItem_created_witness :
  (ItemController.createItem libs_cv013 DbUp 0 gadget_id
     {| ib_name := Some "Gadget"; ib_price := Some (Qmake (-1) 1); ib_description := None |}
     items_empty).1 =
    {| res_status := 201; res_success := true; res_message := "Item created successfully" |} /\
  items (ItemController.createItem libs_cv013 DbUp 0 gadget_id
           {| ib_name := Some "Gadget"; ib_price := Some (Qmake (-1) 1); ib_description := None |}
           items_empty).2 =
    items items_empty ++
      [new_item 0 gadget_id {| ci_name := "Gadget"; ci_price := Qmake (-1) 1;
                               ci_description := None |}].
Proof.
  apply ItemController_createItem_created; [reflexivity | discriminate | vm_compute; reflexivity].
Defined.

(** For an id that is not cached, the get-by-id handler answers 500
    'Failed to retrieve item' when the id does not cast to an ObjectId
    (mongoose's CastError), and 404 when the query finds no item; in the
    latter case it writes no cache entry and leaves the store unchanged. *)
Lemma ItemController_getItemById_uncached (libs : Libs) (conn : DbConn) (now : Z) (id : string)
    (s : IState) :
  (NodeCache.get (itemCache s) now ("item_" +:+ id)).1 = None ->
  (castObjectId libs id = None ->
   (ItemController.getItemById libs conn now id s).1 =
     {| res_status := 500; res_success := false; res_message := "Failed to retrieve item" |}) /\
  (Item_findById libs conn (items s) id = Ok None ->
   (ItemController.getItemById libs conn now id s).1 =
     {| res_status := 404; res_success := false; res_message := "Item not found" |} /\
   NodeCache.data (itemCache (ItemController.getItemById libs conn now id s).2)
     !! ("item_" +:+ id) = None /\
   items (ItemController.getItemById libs conn now id s).2 = items s).
Proof.
  intros Hmiss. unfold ItemController.getItemById, getItemById. cbv zeta.
  pose proof (get_miss_absent (itemCache s) now ("item_" +:+ id) Hmiss) as Habs.
  destruct (NodeCache.get (itemCache s) now ("item_" +:+ id)) as [o c] eqn:E.
  cbn [fst snd] in Hmiss, Habs. subst o.
  cbn [items itemCache set_itemCache]. split.
  - intros Hc. unfold Item_findById at 1. rewrite Hc. reflexivity.
  - intros Hfind. rewrite Hfind.
    cbn [fst snd items itemCache set_itemCache]. split; [reflexivity|].
    split; [exact Habs|reflexivity].
Qed.

(** Witness: '/items/abc' answers 500 and an ObjectId stored nowhere
    answers 404, on the state caching the widget. *)
Lemma ItemController_getItemById_uncached_witness :
  (ItemController.getItemById libs_cv014 DbUp 0 "abc" items_two).1 =
    {| res_status := 500; res_success := false; res_message := "Failed to retrieve item" |} /\
  ((ItemController.getItemById libs_cv014 DbUp 0 gadget_id items_two).1 =
     {| res_status := 404; res_success := false; res_message := "Item not found" |} /\
   NodeCache.data (itemCache (ItemController.getItemById libs_cv014 DbUp 0 gadget_id items_two).2)
     !! ("item_" +:+ gadget_id) = None /\
   items (ItemController.getItemById libs_cv014 DbUp 0 gadget_id items_two).2 = items items_two).
Proof.
  split.
  - destruct (ItemController_getItemById_uncached libs_cv014 DbUp 0 "abc" items_two) as [H _];
      [vm_compute; reflexivity|].
    apply H. vm_compute. reflexivity.
  - destruct (ItemController_getItemById_uncached libs_cv014 DbUp 0 gadget_id items_two) as [_ H];
      [vm_compute; reflexivity|].
    apply H. vm_compute. reflexivity.
Defined.

(** The list handler answers 200 or 500, and 500 only when 'all_items'
    is not cached and either the database is not connected or the item
    cache is at its key bound. *)
Lemma ItemController_getAllItems_500 (conn : DbConn) (now : Z) (s : IState) :
  res_status (ItemController.getAllItems conn now s).1 <> 200 ->
  res_status (ItemController.getAllItems conn now s).1 = 500 /\
  (NodeCache.get (itemCache s) now "all_items").1 = None /\
  (conn <> DbUp \/ NodeCache.full (itemCache s) = true).
Proof.
  intros H. unfold ItemController.getAllItems, getAllItems in *.
  pose proof (full_get (itemCache s) now "all_items") as Hfg.
  destruct (NodeCache.get (itemCache s) now "all_items") as [[w|] c] eqn:E.
  - cbn [fst res_status] in H. congruence.
  - cbn [snd] in Hfg. cbn [items itemCache set_itemCache] in H |- *.
    destruct conn as [|e]; [|split; [reflexivity | split; [reflexivity | left; discriminate]]].
    cbn [Item_find] in H |- *.
    destruct (NodeCache.set c now "all_items" _ (Some 300)) as [c'|m] eqn:S.
    + cbn [fst res_status] in H. congruence.
    + split; [reflexivity|]. split; [reflexivity|]. right.
      unfold NodeCache.set in S. destruct (NodeCache.full c) eqn:F; [|discriminate S].
      destruct (NodeCache.full (itemCache s)) eqn:G; [reflexivity|].
      discriminate (Hfg eq_refl).
Qed.

(** Witness: the full item cache without an 'all_items' entry. *)
Lemma ItemController_getAllItems_500_witness :
  res_status (ItemController.getAllItems DbUp 0 items_full).1 = 500 /\
  (NodeCache.get (itemCache items_full) 0 "all_items").1 = None /\
  (DbUp <> DbUp \/ NodeCache.full (itemCache items_full) = true).
Proof.
  apply ItemController_getAllItems_500. vm_compute. discriminate.
Defined.

(* ------------------------------------------------------------------ *)
(** ** validateEnv and config *)

(** validateEnv returns normally exactly when NODE_ENV, MONGODB_URI and
    PORT are all set to non-empty strings; otherwise it exits with code
    1 (and with no other code). *)
Lemma validateEnv_exit (env : Env) :
  ((validateEnv env).2 = None <-> forall v, In v requiredEnvVars -> truthy (env v) = true) /\
  ((validateEnv env).2 = None \/ (validateEnv env).2 = Some 1).
Proof.
  unfold validateEnv, requiredEnvVars. cbn [List.filter].
  destruct (truthy (env "NODE_ENV")) eqn:E1, (truthy (env "MONGODB_URI")) eqn:E2,
           (truthy (env "PORT")) eqn:E3; cbn [negb snd];
    (split; [split | ]);
    try (left; reflexivity); try (right; reflexivity);
    try (intros H; discriminate H); try (intros _; reflexivity);
    try (intros _ v Hv; destruct Hv as [<-|[<-|[<-|[]]]]; assumption);
    intros H; exfalso;
    pose proof (H "NODE_ENV" ltac:(left; reflexivity));
    pose proof (H "MONGODB_URI" ltac:(right; left; reflexivity));
    pose proof (H "PORT" ltac:(right; right; left; reflexivity));
    congruence.
Qed.

(** NODE_ENV set to the string 'undefined' passes validateEnv, while
    config.environment reads it as unset and answers 'development'. *)
Lemma validateEnv_accepts_undefined_node_env (env : Env) :
  env "NODE_ENV" = Some "undefined" ->
  truthy (env "MONGODB_URI") = true -> truthy (env "PORT") = true ->
  (validateEnv env).2 = None /\ config_environment env = "development".
Proof.
  intros H1 H2 H3. unfold validateEnv, config_environment, requiredEnvVars.
  cbn [List.filter]. rewrite H1, H2, H3. split; reflexivity.
Qed.

(** Witness: NODE_ENV='undefined' with the other two variables set. *)
Lemma validateEnv_accepts_undefined_node_env_witness :
  (validateEnv (env_of [("NODE_ENV", "undefined"); ("MONGODB_URI", "mongodb://db/app");
                        ("PORT", "8080")])).2 = None /\
  config_environment (env_of [("NODE_ENV", "undefined"); ("MONGODB_URI", "mongodb://db/app");
                              ("PORT", "8080")]) = "development".
Proof. apply validateEnv_accepts_undefined_node_env; reflexivity. Defined.

(** config.environment is never empty nor 'undefined': it is
    'development' or the value of NODE_ENV, unchecked against the three
    names of its declared type. *)
Lemma config_environment_set (env : Env) :
  config_environment env <> "" /\ config_environment env <> "undefined" /\
  (config_environment env = "development" \/ env "NODE_ENV" = Some (config_environment env)).
Proof.
  unfold config_environment.
  destruct (env "NODE_ENV") as [v|]; [|split; [discriminate | split; [discriminate | left; reflexivity]]].
  destruct (String.eqb v "") eqn:E1; cbn [orb];
    [split; [discriminate | split; [discriminate | left; reflexivity]]|].
  destruct (String.eqb v "undefined") eqn:E2;
    [split; [discriminate | split; [discriminate | left; reflexivity]]|].
  apply String.eqb_neq in E1, E2. split; [exact E1 | split; [exact E2 | right; reflexivity]].
Qed.

(** validateEnv accepts a PORT that config.port reads as NaN: any value
    starting with a letter, other than 'undefined'. *)
Lemma validateEnv_accepts_nan_port (env : Env) (c : ascii) (r : string) :
  truthy (env "NODE_ENV") = true -> truthy (env "MONGODB_URI") = true ->
  env "PORT" = Some (String c r) -> Validator.is_alpha c = true ->
  String c r <> "undefined" ->
  (validateEnv env).2 = None /\ config_port env = None.
Proof.
  intros H1 H2 Hp Ha Hu. unfold validateEnv, config_port, requiredEnvVars.
  cbn [List.filter]. rewrite H1, H2, Hp. cbn [truthy].
  rewrite (eqb_false_of_neq _ _ Hu), (eqb_false_of_neq (String c r) "") by discriminate.
  cbn [negb andb].
  split; [reflexivity | apply parseInt_alpha; exact Ha].
Qed.

(** Witness: PORT='http'. *)
Lemma validateEnv_accepts_nan_port_witness :
  (validateEnv (env_of [("NODE_ENV", "production"); ("MONGODB_URI", "mongodb://db/app");
                        ("PORT", "http")])).2 = None /\
  config_port (env_of [("NODE_ENV", "production"); ("MONGODB_URI", "mongodb://db/app");
                       ("PORT", "http")]) = None.
Proof.
  apply (validateEnv_accepts_nan_port _ "h"%char "ttp"); try reflexivity. discriminate.
Defined.

(* ------------------------------------------------------------------ *)
(** ** startServer *)

(** Run as the entry point, the server clusters exactly when
    ENABLE_CLUSTERING is 'true' and the process is the primary, whatever
    NODE_ENV says; called without options, it clusters a primary exactly
    when the configured environment is 'production'. *)
Lemma startServer_entry_point_clustering (env : Env) (isPrimary : bool) (numCPUs : Z) :
  startServer_mode (main_options env) (config_environment env) isPrimary numCPUs =
    (if bool_decide (env "ENABLE_CLUSTERING" = Some "true") && isPrimary
     then Clustered (Z.min numCPUs 4) else Serving (config_environment env)) /\
  startServer_mode {| so_environment := None; so_enableClustering := None |}
      (config_environment env) isPrimary numCPUs =
    (if String.eqb (config_environment env) "production" && isPrimary
     then Clustered (Z.min numCPUs 4) else Serving (config_environment env)).
Proof.
  split; [|reflexivity].
  unfold startServer_mode, main_options. cbn [so_environment so_enableClustering truthy].
  destruct (env "ENABLE_CLUSTERING") as [v|].
  - destruct (String.eqb v "true") eqn:Ev.
    + apply String.eqb_eq in Ev. subst v. rewrite bool_decide_true by reflexivity. reflexivity.
    + apply String.eqb_neq in Ev. rewrite bool_decide_false by congruence. reflexivity.
  - rewrite bool_decide_false by discriminate. reflexivity.
Qed.

(** A clustered start happens only in the primary and forks between 1
    and 4 workers (at least 1 when the machine reports a CPU). *)
Lemma startServer_worker_count (options : StartOptions) (config_env : string) (isPrimary : bool)
    (numCPUs w : Z) :
  startServer_mode options config_env isPrimary numCPUs = Clustered w ->
  isPrimary = true /\ w <= 4 /\ (1 <= numCPUs -> 1 <= w).
Proof.
  unfold startServer_mode. cbv zeta.
  destruct (match so_enableClustering options with Some b => b | None => _ end && isPrimary)
    eqn:E; [|discriminate].
  intros H. injection H as <-. apply andb_prop in E as [_ ->].
  split; [reflexivity | split; lia].
Qed.

(** Witness: a primary on a 16-CPU machine with ENABLE_CLUSTERING='true'
    forks 4 workers. *)
Lemma startServer_worker_count_witness :
  startServer_mode (main_options (env_of [("ENABLE_CLUSTERING", "true")])) "production" true 16 =
    Clustered 4 /\
  (true = true /\ 4 <= 4 /\ (1 <= 16 -> 1 <= 4)).
Proof.
  split; [reflexivity|].
  apply (startServer_worker_count (main_options (env_of [("ENABLE_CLUSTERING", "true")]))
           "production" true 16 4).
  reflexivity.
Defined.

(* ------------------------------------------------------------------ *)
(** ** Database connection *)

(** While connected, connectToDatabase calls, whatever mongoose.connect
    would do, change nothing: no new connection, no new listeners. *)
Lemma db_connect_while_connected (st : DbState) (oks : list bool) :
  isConnected st = true -> db_run st (map DbConnect oks) = Some st.
Proof.
  intros H. induction oks as [|ok oks IH]; [reflexivity|].
  cbn [map db_run db_step]. rewrite H. exact IH.
Qed.

(** Witness: three calls after a successful connect. *)
Lemma db_connect_while_connected_witness :
  db_run {| isConnected := true; listenerSets := 1; connectCalls := 1 |}
    (map DbConnect [true; false; true]) =
    Some {| isConnected := true; listenerSets := 1; connectCalls := 1 |}.
Proof. apply db_connect_while_connected. reflexivity. Defined.

(** Each 'disconnected' event followed by a successful connectToDatabase
    connects again and registers one more set of connection listeners:
    after [k] such cycles there are [k] more sets. *)
Lemma db_reconnect_cycles (st : DbState) (k : nat) :
  isConnected st = true -> (0 < listenerSets st)%nat ->
  db_run st (concat (repeat [DbDisconnectedEvent; DbConnect true] k)) =
    Some {| isConnected := true; listenerSets := (listenerSets st + k)%nat;
            connectCalls := (connectCalls st + k)%nat |}.
Proof.
  revert st. induction k as [|k IH]; intros st Hc Hl.
  - destruct st as [b l n]. cbn [isConnected] in Hc. subst b. cbn. rewrite !Nat.add_0_r.
    reflexivity.
  - cbn [repeat concat]. rewrite db_run_app.
    cbn [db_run db_step]. replace ((0 <? listenerSets st)%nat) with true
      by (symmetry; apply Nat.ltb_lt; exact Hl).
    cbn [isConnected listenerSets connectCalls].
    rewrite IH by (cbn; lia). cbn [listenerSets connectCalls].
    f_equal. f_equal; lia.
Qed.

(** Witness: two cycles after the first successful connect. *)
Lemma db_reconnect_cycles_witness :
  db_run {| isConnected := true; listenerSets := 1; connectCalls := 1 |}
    (concat (repeat [DbDisconnectedEvent; DbConnect true] 2)) =
    Some {| isConnected := true; listenerSets := 3; connectCalls := 3 |}.
Proof.
  apply (db_reconnect_cycles {| isConnected := true; listenerSets := 1; connectCalls := 1 |} 2);
    [reflexivity | cbn; lia].
Defined.

(* ------------------------------------------------------------------ *)
(** ** UserModel.fullName and ItemModel.getPriceWithTax *)

(** For names without spaces, splitting the full name at ' ' gives back
    the first and last names. *)
Lemma fullName_split (u : UserDoc) :
  Str.all_chars (fun d => negb (Ascii.eqb " "%char d)) (u_firstName u) = true ->
  Str.all_chars (fun d => negb (Ascii.eqb " "%char d)) (u_lastName u) = true ->
  Str.split " "%char (fullName u) = [u_firstName u; u_lastName u].
Proof.
  intros H1 H2. unfold fullName. change (" " +:+ u_lastName u) with (String " "%char (u_lastName u)).
  rewrite (split_app_sep _ _ _ H1), (split_no_sep _ _ H2). reflexivity.
Qed.

(** Witness: the stored user alice ("Test" "User"). *)
Lemma fullName_split_witness :
  Str.split " "%char (fullName alice) = [u_firstName alice; u_lastName alice].
Proof. apply fullName_split; reflexivity. Defined.


